(** * SlackToSheet: the monitor of [slack_to_sheet.py]

    A shallow embedding of [SlackSheetsMonitor]: the message fingerprint,
    the seen-set state file, the trigger filter, the enrichment of a
    triggered message, the sheet writer and the monitor cycle, followed by
    the properties of the specification that concern them.

    Conventions.
    - A Python [str] is carried as its UTF-8 bytes in a Rocq [string]
      (string literals of this file are UTF-8 as well), so [.encode()] is
      the identity and a slice [s[:n]] counts lead bytes.
    - A [dict] received from Slack is a record whose optional keys are
      [option] fields; [d.get(k, default)] is [default] applied to the
      field.
    - The Slack client and the Sheets service are outside the file: they
      are interfaces (records of functions) that the methods take as
      arguments, and so is [float]; module [Demo] has concrete ones for
      the examples.  [hashlib.md5] and the calendar of [datetime] are
      written out.
    - A method that can raise, or that changes the monitor, the state
      file or the sheet, is a function from a world to an outcome and a
      world; [try]/[except] is [try_except]. *)

From Stdlib Require Import ZArith Lia Ascii.
From stdpp Require Import base option list strings gmap.

Local Open Scope string_scope.
Local Open Scope list_scope.
Local Open Scope Z_scope.

(** ** Python strings *)

Module PyStr.

(** A byte [10xxxxxx] continues the character begun before it. *)
Definition is_continuation (c : ascii) : bool :=
  let n := Z.of_N (Ascii.N_of_ascii c) in
  (128 <=? n) && (n <? 192).

(** [s[:n]]: the first [n] characters (code points) of [s]. *)
Fixpoint slice_to (n : nat) (s : string) : string :=
  match s with
  | EmptyString => EmptyString
  | String c rest =>
      if is_continuation c then String c (slice_to n rest)
      else match n with
           | O => EmptyString
           | S n' => String c (slice_to n' rest)
           end
  end.

(** [sep.join(parts)] *)
Fixpoint join (sep : string) (parts : list string) : string :=
  match parts with
  | [] => ""
  | [p] => p
  | p :: ps => p +:+ sep +:+ join sep ps
  end.

(** Truthiness of a string: [bool(s)]. *)
Definition truthy (s : string) : bool :=
  match s with EmptyString => false | _ => true end.

Definition bytes (s : string) : list Z :=
  map (fun c => Z.of_N (Ascii.N_of_ascii c)) (String.list_ascii_of_string s).

End PyStr.

Arguments PyStr.is_continuation : simpl never.

(** ** [hashlib.md5(b).hexdigest()] (RFC 1321), on 32-bit words in [Z] *)

Module MD5.

Definition mask32 : Z := 4294967295.
Definition w32 (x : Z) : Z := Z.land x mask32.
Definition add32 (x y : Z) : Z := w32 (x + y).
Definition not32 (x : Z) : Z := Z.lxor x mask32.
Definition rotl32 (x c : Z) : Z :=
  w32 (Z.lor (Z.shiftl x c) (Z.shiftr x (32 - c))).

Definition K : list Z :=
  [ 3614090360; 3905402710; 606105819; 3250441966;
    4118548399; 1200080426; 2821735955; 4249261313;
    1770035416; 2336552879; 4294925233; 2304563134;
    1804603682; 4254626195; 2792965006; 1236535329;
    4129170786; 3225465664; 643717713; 3921069994;
    3593408605; 38016083; 3634488961; 3889429448;
    568446438; 3275163606; 4107603335; 1163531501;
    2850285829; 4243563512; 1735328473; 2368359562;
    4294588738; 2272392833; 1839030562; 4259657740;
    2763975236; 1272893353; 4139469664; 3200236656;
    681279174; 3936430074; 3572445317; 76029189;
    3654602809; 3873151461; 530742520; 3299628645;
    4096336452; 1126891415; 2878612391; 4237533241;
    1700485571; 2399980690; 4293915773; 2240044497;
    1873313359; 4264355552; 2734768916; 1309151649;
    4149444226; 3174756917; 718787259; 3951481745 ].

Definition S : list Z :=
  [ 7; 12; 17; 22; 7; 12; 17; 22; 7; 12; 17; 22; 7; 12; 17; 22;
    5; 9; 14; 20; 5; 9; 14; 20; 5; 9; 14; 20; 5; 9; 14; 20;
    4; 11; 16; 23; 4; 11; 16; 23; 4; 11; 16; 23; 4; 11; 16; 23;
    6; 10; 15; 21; 6; 10; 15; 21; 6; 10; 15; 21; 6; 10; 15; 21 ].

Definition nthZ (l : list Z) (i : Z) : Z := nth (Z.to_nat i) l 0.

(** The message, a single 1 bit, zeros up to 56 mod 64, then the bit
    length on 8 little-endian bytes. *)
Definition le_bytes (count : nat) (x : Z) : list Z :=
  map (fun i => Z.land (Z.shiftr x (8 * Z.of_nat i)) 255) (seq 0 count).

Definition pad (msg : list Z) : list Z :=
  let len := Z.of_nat (length msg) in
  let zeros := Z.to_nat ((55 - len) mod 64) in
  msg ++ [128] ++ repeat 0 zeros ++ le_bytes 8 (Z.land (8 * len) 18446744073709551615).

Definition le_word (b : list Z) : Z :=
  nthZ b 0 + Z.shiftl (nthZ b 1) 8 + Z.shiftl (nthZ b 2) 16 + Z.shiftl (nthZ b 3) 24.

(** The sixteen words of a 64-byte block. *)
Definition words (block : list Z) : list Z :=
  map (fun i => le_word (drop (4 * i) block)) (seq 0 16).

Record state := St { sa : Z; sb : Z; sc : Z; sd : Z }.

Definition init : state :=
  St 1732584193 4023233417 2562383102 271733878.

Definition round (M : list Z) (st : state) (i : Z) : state :=
  let '(St A B C D) := st in
  let '(F, g) :=
    if i <? 16 then (Z.lor (Z.land B C) (Z.land (not32 B) D), i)
    else if i <? 32 then (Z.lor (Z.land D B) (Z.land (not32 D) C), (5 * i + 1) mod 16)
    else if i <? 48 then (Z.lxor (Z.lxor B C) D, (3 * i + 5) mod 16)
    else (Z.lxor C (Z.lor B (not32 D)), (7 * i) mod 16) in
  let F' := add32 (add32 (add32 F A) (nthZ K i)) (nthZ M g) in
  St D (add32 B (rotl32 F' (nthZ S i))) B C.

Definition compress (st : state) (block : list Z) : state :=
  let M := words block in
  let '(St A B C D) := foldl (round M) st (map Z.of_nat (seq 0 64)) in
  St (add32 (sa st) A) (add32 (sb st) B) (add32 (sc st) C) (add32 (sd st) D).

(** The blocks are consumed 64 bytes at a time; [n] counts them. *)
Fixpoint blocks (n : nat) (st : state) (data : list Z) : state :=
  match n with
  | O => st
  | Datatypes.S n' => blocks n' (compress st (take 64 data)) (drop 64 data)
  end.

Definition digest (msg : list Z) : list Z :=
  let p := pad msg in
  let '(St A B C D) := blocks (length p / 64) init p in
  le_bytes 4 A ++ le_bytes 4 B ++ le_bytes 4 C ++ le_bytes 4 D.

Definition hex_digit (d : Z) : ascii :=
  Ascii.ascii_of_N (Z.to_N (if d <? 10 then 48 + d else 87 + d)).

Definition hex (bs : list Z) : string :=
  String.string_of_list_ascii
    (flat_map (fun b => [hex_digit (Z.shiftr b 4); hex_digit (Z.land b 15)]) bs).

Definition hexdigest (s : string) : string := hex (digest (PyStr.bytes s)).

End MD5.

(** ** [datetime.fromtimestamp(t, tz=timezone.utc)] and [strftime] *)

Module Datetime.

Record t := mk {
  year : Z; month : Z; day : Z; hour : Z; minute : Z; second : Z }.

Definition _DAYS_IN_MONTH : list Z :=
  [-1; 31; 28; 31; 30; 31; 30; 31; 31; 30; 31; 30; 31].
Definition _DAYS_BEFORE_MONTH : list Z :=
  [-1; 0; 31; 59; 90; 120; 151; 181; 212; 243; 273; 304; 334].
Definition _DI400Y : Z := 146097.
Definition _DI100Y : Z := 36524.
Definition _DI4Y : Z := 1461.
Definition _MAXORDINAL : Z := 3652059.

Definition tbl (l : list Z) (i : Z) : Z := nth (Z.to_nat i) l 0.

(** [_ord2ymd(n)]: the proleptic Gregorian date of ordinal [n], where
    ordinal 1 is 0001-01-01. *)
Definition _ord2ymd (n : Z) : Z * Z * Z :=
  let n := n - 1 in
  let n400 := n / _DI400Y in
  let n := n mod _DI400Y in
  let year := n400 * 400 + 1 in
  let n100 := n / _DI100Y in
  let n := n mod _DI100Y in
  let n4 := n / _DI4Y in
  let n := n mod _DI4Y in
  let n1 := n / 365 in
  let n := n mod 365 in
  let year := year + n100 * 100 + n4 * 4 + n1 in
  if (n1 =? 4) || (n100 =? 4) then (year - 1, 12, 31)
  else
    let leapyear := (n1 =? 3) && (negb (n4 =? 24) || (n100 =? 3)) in
    let month := Z.shiftr (n + 50) 5 in
    let preceding :=
      tbl _DAYS_BEFORE_MONTH month + (if (2 <? month) && leapyear then 1 else 0) in
    if n <? preceding then
      let month := month - 1 in
      let preceding :=
        preceding
        - (tbl _DAYS_IN_MONTH month + (if (month =? 2) && leapyear then 1 else 0)) in
      (year, month, n - preceding + 1)
    else (year, month, n - preceding + 1).

(** [_is_leap], [_days_before_year], [_days_before_month] and [_ymd2ord]:
    the ordinal of a date, by which [_ord2ymd] is specified. *)
Definition _is_leap (year : Z) : bool :=
  (year mod 4 =? 0) && (negb (year mod 100 =? 0) || (year mod 400 =? 0)).

Definition _days_before_year (year : Z) : Z :=
  let y := year - 1 in y * 365 + y / 4 - y / 100 + y / 400.

Definition _days_before_month (year month : Z) : Z :=
  tbl _DAYS_BEFORE_MONTH month + (if (2 <? month) && _is_leap year then 1 else 0).

Definition _ymd2ord (year month day : Z) : Z :=
  _days_before_year year + _days_before_month year month + day.

(** The datetime of [secs] whole seconds after 1970-01-01T00:00:00Z;
    [None] where Python raises because the year leaves 1..9999. *)
Definition fromtimestamp_utc (secs : Z) : option t :=
  let days := secs / 86400 in
  let rem := secs mod 86400 in
  let ordinal := days + 719163 in
  if (1 <=? ordinal) && (ordinal <=? _MAXORDINAL) then
    let '(y, m, d) := _ord2ymd ordinal in
    Some (mk y m d (rem / 3600) (rem mod 3600 / 60) (rem mod 60))
  else None.

(** The whole seconds from 1970-01-01T00:00:00Z to a datetime
    ([calendar.timegm] of its fields). *)
Definition epoch_seconds (dt : t) : Z :=
  (_ymd2ord (year dt) (month dt) (day dt) - 719163) * 86400
  + hour dt * 3600 + minute dt * 60 + second dt.

(** The digits of [strftime]: [%m], [%d], [%H], [%M] and [%S] are two
    digits.  [%Y] is left to the C library, and CPython on glibc writes
    the year in decimal with no leading zero: [385] for the year 385,
    four digits from the year 1000 on ([year_digits]; a datetime has a
    year from 1 to 9999). *)
Definition digit (d : Z) : ascii := ascii_of_N (Z.to_N (48 + d)).

Definition pad2 (n : Z) : string :=
  String (digit (n / 10 mod 10)) (String (digit (n mod 10)) "").

Definition pad4 (n : Z) : string :=
  String (digit (n / 1000 mod 10)) (String (digit (n / 100 mod 10)) (pad2 n)).

Definition year_digits (n : Z) : string :=
  if n <? 10 then String (digit (n mod 10)) ""
  else if n <? 100 then pad2 n
  else if n <? 1000 then String (digit (n / 100 mod 10)) (pad2 n)
  else pad4 n.

(** [dt.strftime("%Y-%m-%d %H:%M:%S UTC")] *)
Definition strftime (dt : t) : string :=
  year_digits (year dt) +:+ "-" +:+ pad2 (month dt) +:+ "-" +:+ pad2 (day dt) +:+ " "
  +:+ pad2 (hour dt) +:+ ":" +:+ pad2 (minute dt) +:+ ":" +:+ pad2 (second dt)
  +:+ " UTC".

(** A shape: [d] in the pattern stands for one decimal digit, any other
    character for itself. *)
Definition is_digit (c : ascii) : bool :=
  let n := Z.of_N (N_of_ascii c) in (48 <=? n) && (n <=? 57).

Fixpoint has_shape (pattern s : string) : bool :=
  match pattern, s with
  | EmptyString, EmptyString => true
  | String p pattern', String c s' =>
      (if Ascii.eqb p "d" then is_digit c else Ascii.eqb p c)
      && has_shape pattern' s'
  | _, _ => false
  end.

End Datetime.

(** ** Configuration *)

Definition TRIGGER_EMOJIS : gset string :=
  {[ "form"; "docgen"; "relayflag"; "box-apps"; "box-sign" ]}.
Definition DEFAULT_CHANNEL_ID : string := "channel_ID".
Definition SPREADSHEET_ID : string := "sheet_ID".
Definition SHEET_NAME : string := "Sheet2".

(** ** What Slack sends *)

Module Reaction.
Record t := mk { name : option string }.
End Reaction.

Module Message.
(** A message of [conversations_history] or [conversations_replies].
    A key the dict lacks is [None]; a missing ["reactions"] is [[]]. *)
Record t := mk {
  ts : option string;
  user : option string;
  text : option string;
  reactions : list Reaction.t;
  thread_ts : option string }.
End Message.

Module User.
Record t := mk {
  display_name : option string;
  real_name : option string;
  name : option string }.
End User.

Module Channel.
Record t := mk { name : option string }.
End Channel.

(** The outcome of one Slack Web API call: the call raised, or it answered
    with ["ok"] false, or with ["ok"] true and the payload.  A payload key
    that the answer lacks while the code indexes it counts as raising. *)
Inductive response (A : Type) : Type :=
  | Raised
  | NotOk
  | Ok (payload : A).
Arguments Raised {A}.
Arguments NotOk {A}.
Arguments Ok {A} payload.

(** [self.slack_client] *)
Record slack_client := {
  conversations_history : string -> Z -> response (list Message.t);
  users_info : string -> response User.t;
  conversations_info : string -> response Channel.t;
  chat_getPermalink : string -> string -> response (option string);
  conversations_replies : string -> string -> response (list Message.t) }.

(** ** What the monitor produces *)

Module Item.
(** One element of [new_triggered_messages]. *)
Record t := mk {
  id : string;
  timestamp : string;
  user : string;
  channel : string;
  reacted_message_text : string;
  parent_message : string;
  thread_replies : string;
  link : string;
  trigger_emojis : string }.
End Item.

(** ** The Sheets service *)

(** A request built on [self.sheets_service.spreadsheets().values()] and
    executed. *)
Inductive request :=
  | ValuesGet (spreadsheetId range : string)
  | ValuesAppend (spreadsheetId range valueInputOption insertDataOption : string)
                 (values : list (list string)).

(** How [execute()] can fail: [HttpError], or any other exception (the
    transport, a malformed answer). *)
Inductive failure := Http | Transport.

(** The service over a store of type [S]: each executed request answers
    or fails, and leaves the store in some state. *)
Record sheets_service (S : Type) := {
  (** [get(...).execute().get('values', [])] *)
  values_get : string -> string -> S -> (failure + list (list string)) * S;
  (** [append(...).execute().get('updates', {}).get('updatedCells', 0)] *)
  values_append : string -> string -> list (list string) -> S -> (failure + Z) * S }.
Arguments values_get {S}.
Arguments values_append {S}.

(** ** The state file *)

#[warnings="-register-all"]
Inductive json :=
  | JNull
  | JBool (b : bool)
  | JNum (n : Z)
  | JStr (s : string)
  | JArr (items : list json)
  | JObj (members : list (string * json)).

(** [STATE_FILE] on disk, as [os.path.exists], [open] and [json.load] see
    it. *)
Inductive file :=
  | Missing
  | Unreadable                (* exists, [open(..., 'r')] raises *)
  | Garbled                   (* readable, not a JSON document: also the
                                 empty file and a partly written one *)
  | Document (doc : json).

(** What happens to the next write of [STATE_FILE]. *)
Inductive fault :=
  | NoFault
  | OpenFails                 (* [open(..., 'w')] raises [OSError] *)
  | DumpFails                 (* [json.dump] raises after the open *)
  | Interrupted.              (* the process is interrupted in [json.dump] *)

(** ** Exceptions *)

Inductive exn :=
  | SlackApiError
  | HttpError
  | OSError
  | JSONDecodeError
  | AttributeError
  | TypeError
  | OtherException
  | KeyboardInterrupt.

(** [isinstance(e, Exception)]: what [except Exception] catches. *)
Definition is_Exception (e : exn) : bool :=
  match e with KeyboardInterrupt => false | _ => true end.

Definition is_HttpError (e : exn) : bool :=
  match e with HttpError => true | _ => false end.

Definition exn_of_failure (f : failure) : exn :=
  match f with Http => HttpError | Transport => OtherException end.

(** ** The world of one monitor and the monad of its methods *)

(** [self.processed_messages], the state file and its next write fault,
    the store behind the Sheets service, and the requests executed so far
    (oldest first). *)
Record world (S : Type) := World {
  processed_messages : gset string;
  state_file : file;
  write_fault : fault;
  sheet : S;
  requests : list request }.
Arguments World {S}.
Arguments processed_messages {S}.
Arguments state_file {S}.
Arguments write_fault {S}.
Arguments sheet {S}.
Arguments requests {S}.

(** A method either returns or raises, and leaves a world behind in both
    cases. *)
Definition M (S A : Type) : Type := world S -> (exn + A) * world S.

Definition ret {S A} (a : A) : M S A := fun w => (inr a, w).

Definition raise {S A} (e : exn) : M S A := fun w => (inl e, w).

Definition bind {S A B} (m : M S A) (k : A -> M S B) : M S B :=
  fun w =>
    match m w with
    | (inl e, w') => (inl e, w')
    | (inr a, w') => k a w'
    end.

(** [try: body  except <caught>: handler] *)
Definition try_except {S A} (body : M S A) (caught : exn -> bool)
    (handler : exn -> M S A) : M S A :=
  fun w =>
    match body w with
    | (inl e, w') => if caught e then handler e w' else (inl e, w')
    | r => r
    end.

Definition gets {S A} (f : world S -> A) : M S A := fun w => (inr (f w), w).

Definition modify {S} (f : world S -> world S) : M S unit :=
  fun w => (inr tt, f w).

Declare Scope monitor_scope.
Delimit Scope monitor_scope with monitor.
Notation "x <- m ;; k" := (bind m (fun x => k))
  (at level 100, m at next level, right associativity) : monitor_scope.
Notation "m ;; k" := (bind m (fun _ => k))
  (at level 100, right associativity) : monitor_scope.
Local Open Scope monitor_scope.

Definition set_processed_messages {S} (pm : gset string) (w : world S) : world S :=
  World pm (state_file w) (write_fault w) (sheet w) (requests w).

Definition set_state_file {S} (f : file) (w : world S) : world S :=
  World (processed_messages w) f (write_fault w) (sheet w) (requests w).

Definition set_sheet {S} (s : S) (rq : request) (w : world S) : world S :=
  World (processed_messages w) (state_file w) (write_fault w) s (requests w ++ [rq]).

(** ** Helpers on Python values *)

(** [a or b] where [a] is a string or [None]: [a] when it is a non-empty
    string, else [b]. *)
Definition py_or (a : option string) (b : string) : string :=
  match a with
  | Some s => if PyStr.truthy s then s else b
  | None => b
  end.

(** [d.get(key)] on the members of a JSON object; a key given twice keeps
    its last value, as [json.load] builds the dict. *)
Fixpoint member_lookup (key : string) (members : list (string * json)) : option json :=
  match members with
  | [] => None
  | (k, v) :: rest =>
      match member_lookup key rest with
      | Some later => Some later
      | None => if decide (k = key) then Some v else None
      end
  end.

(** The characters of a string, each as a string of its own. *)
Fixpoint chars (s : string) : list string :=
  match s with
  | EmptyString => []
  | String c rest =>
      match chars rest with
      | String c' g :: gs =>
          if PyStr.is_continuation c' then String c (String c' g) :: gs
          else String c "" :: String c' g :: gs
      | gs => String c "" :: gs
      end
  end.

(** The string members of a list put in a set.  A list or a dict among
    them is unhashable ([TypeError]); a number, a boolean or [null] is
    hashable and is left out here, since the set is only ever asked for
    strings and no string equals one of them. *)
Fixpoint hashable_strings (items : list json) : exn + list string :=
  match items with
  | [] => inr []
  | item :: rest =>
      match item, hashable_strings rest with
      | JArr _, _ | JObj _, _ => inl TypeError
      | _, inl e => inl e
      | JStr s, inr l => inr (s :: l)
      | _, inr l => inr l
      end
  end.

(** [set(v)] for a value read from JSON. *)
Definition py_set (v : json) : exn + gset string :=
  match v with
  | JArr items =>
      match hashable_strings items with
      | inl e => inl e
      | inr l => inr (list_to_set l)
      end
  | JStr s => inr (list_to_set (chars s))
  | JObj members => inr (list_to_set (members.*1))
  | JNull | JBool _ | JNum _ => inl TypeError
  end.

(** ** Pure methods *)

(** [_get_message_id] *)
Definition _get_message_id (message : Message.t) : string :=
  let unique_string :=
    default "" (Message.ts message) +:+ "-" +:+
    default "" (Message.user message) +:+ "-" +:+
    PyStr.slice_to 50 (default "" (Message.text message)) in
  MD5.hexdigest unique_string.

(** The loop of [has_trigger_emoji]. *)
Fixpoint trigger_loop (reactions : list Reaction.t) (trigger_emojis_found : list string)
    : list string :=
  match reactions with
  | [] => trigger_emojis_found
  | reaction :: rest =>
      let emoji_name := default "" (Reaction.name reaction) in
      if decide (emoji_name ∈ TRIGGER_EMOJIS)
      then trigger_loop rest (trigger_emojis_found ++ [emoji_name])
      else trigger_loop rest trigger_emojis_found
  end.

(** [has_trigger_emoji] *)
Definition has_trigger_emoji (message : Message.t) : list string :=
  trigger_loop (Message.reactions message) [].

(** The row of one item, as [append_to_sheet] lays it out. *)
Definition row_of (item : Item.t) : list string :=
  [ Item.timestamp item; Item.user item; Item.channel item;
    Item.reacted_message_text item; Item.parent_message item;
    Item.thread_replies item; Item.link item; Item.trigger_emojis item ].

Definition headers : list string :=
  [ "Timestamp"; "User"; "Channel"; "Reacted Message Text";
    "Parent Message"; "Thread Replies"; "Link"; "Trigger Emojis" ].

Section Monitor.

Context (slack : slack_client).
Context {S : Type} (service : sheets_service S).
(** [float(s)] followed by the rounding of [datetime.fromtimestamp] to the
    microsecond: the whole seconds, rounded down, from the epoch to the
    instant that the string denotes; [None] when [float] raises or its
    value is not finite.  Floating point is left to this function. *)
Context (float_seconds : string -> option Z).

(** *** Lookups: every exception is caught inside *)

(** [get_user_name] *)
Definition get_user_name (user_id : string) : string :=
  match users_info slack user_id with
  | Ok user =>
      py_or (User.display_name user)
        (py_or (User.real_name user) (default user_id (User.name user)))
  | NotOk => user_id
  | Raised => user_id
  end.

(** [get_channel_name] *)
Definition get_channel_name (channel_id : string) : string :=
  match conversations_info slack channel_id with
  | Ok channel => "#" +:+ default channel_id (Channel.name channel)
  | NotOk => channel_id
  | Raised => channel_id
  end.

(** [get_permalink] *)
Definition get_permalink (channel_id message_ts : string) : string :=
  match chat_getPermalink slack channel_id message_ts with
  | Ok permalink => default "" permalink
  | NotOk => ""
  | Raised => ""
  end.

(** [get_thread_replies] *)
Definition get_thread_replies (channel_id thread_ts : string) : list Message.t :=
  match conversations_replies slack channel_id thread_ts with
  | Ok messages => messages
  | NotOk => []
  | Raised => []
  end.

(** *** The seen-set store *)

(** [os.path.exists(STATE_FILE)] *)
Definition os_path_exists : M S bool :=
  gets (fun w => match state_file w with Missing => false | _ => true end).

(** [with open(STATE_FILE, 'r') as f: json.load(f)] *)
Definition json_load : M S json :=
  fun w =>
    match state_file w with
    | Missing | Unreadable => (inl OSError, w)
    | Garbled => (inl JSONDecodeError, w)
    | Document doc => (inr doc, w)
    end.

(** [open(STATE_FILE, 'w')]: the file is created or cut to length zero. *)
Definition open_w : M S unit :=
  fun w =>
    match write_fault w with
    | OpenFails => (inl OSError, w)
    | _ => (inr tt, set_state_file Garbled w)
    end.

(** [json.dump(state, f, indent=2)] and the close that ends the [with]. *)
Definition json_dump (state : json) : M S unit :=
  fun w =>
    match write_fault w with
    | DumpFails => (inl OSError, w)
    | Interrupted => (inl KeyboardInterrupt, w)
    | _ => (inr tt, set_state_file (Document state) w)
    end.

Definition lift {A} (r : exn + A) : M S A := fun w => (r, w).

(** [_load_state] *)
Definition _load_state : M S unit :=
  try_except
    (are <- os_path_exists ;;
     if are : bool then
       state <- json_load ;;
       members <- match state with
                  | JObj members => ret members
                  | _ => raise AttributeError
                  end ;;
       loaded <- lift (py_set (default (JArr []) (member_lookup "processed_messages" members))) ;;
       modify (set_processed_messages loaded)
     else ret tt)
    is_Exception
    (fun _ => modify (set_processed_messages ∅)).

(** [_save_state], where [now] is [datetime.now(timezone.utc).isoformat()]. *)
Definition _save_state (now : string) : M S unit :=
  try_except
    (pm <- gets processed_messages ;;
     let state :=
       JObj [ ("processed_messages", JArr (JStr <$> elements pm));
              ("last_check_time", JStr now) ] in
     open_w ;;
     json_dump state)
    is_Exception
    (fun _ => ret tt).

(** [__init__], after the Sheets service has been built. *)
Definition __init__ : M S unit :=
  modify (set_processed_messages ∅) ;;
  _load_state.

(** *** Fetching the new triggered messages *)

(** The timestamp column of a message. *)
Definition format_timestamp (message : Message.t) : string :=
  let timestamp := default "" (Message.ts message) in
  if PyStr.truthy timestamp then
    match float_seconds timestamp ≫= Datetime.fromtimestamp_utc with
    | Some dt => Datetime.strftime dt
    | None => timestamp
    end
  else "Unknown".

(** [parent_text] and [thread_replies] of a message. *)
Definition thread_context (channel_id : string) (message : Message.t)
    : string * list string :=
  match Message.thread_ts message with
  | Some thread_ts =>
      if PyStr.truthy thread_ts then
        match get_thread_replies channel_id thread_ts with
        | [] => ("", [])
        | first :: others =>
            (default "" (Message.text first),
             (fun msg => default "" (Message.text msg)) <$>
               filter (fun msg => Message.ts msg ≠ Message.ts message) others)
        end
      else ("", [])
  | None => ("", [])
  end.

(** The dict appended to [new_triggered_messages]. *)
Definition new_item (channel_id channel_name : string) (message : Message.t)
    (message_id : string) (trigger_emojis : list string) : Item.t :=
  let user_id := default "Unknown" (Message.user message) in
  let user_name := get_user_name user_id in
  let permalink := get_permalink channel_id (default "" (Message.ts message)) in
  let '(parent_text, thread_replies) := thread_context channel_id message in
  Item.mk message_id (format_timestamp message) user_name channel_name
    (default "" (Message.text message)) parent_text
    (PyStr.join (String "010" "") thread_replies) permalink
    (PyStr.join ", " trigger_emojis).

(** [for message in messages: ...] *)
Fixpoint messages_loop (channel_id channel_name : string) (messages : list Message.t)
    (new_triggered_messages : list Item.t) : M S (list Item.t) :=
  match messages with
  | [] => ret new_triggered_messages
  | message :: rest =>
      let message_id := _get_message_id message in
      pm <- gets processed_messages ;;
      if decide (message_id ∈ pm) then
        messages_loop channel_id channel_name rest new_triggered_messages
      else
        let trigger_emojis := has_trigger_emoji message in
        match trigger_emojis with
        | [] => messages_loop channel_id channel_name rest new_triggered_messages
        | _ :: _ =>
            let item := new_item channel_id channel_name message message_id trigger_emojis in
            modify (fun w => set_processed_messages ({[message_id]} ∪ processed_messages w) w) ;;
            messages_loop channel_id channel_name rest (new_triggered_messages ++ [item])
        end
  end.

(** [await self.slack_client.conversations_history(...)], then
    [result["ok"]] and [result.get("messages", [])]. *)
Definition history (channel_id : string) (limit : Z) : M S (option (list Message.t)) :=
  match conversations_history slack channel_id limit with
  | Raised => raise SlackApiError
  | NotOk => ret None
  | Ok messages => ret (Some messages)
  end.

(** [fetch_new_triggered_messages] *)
Definition fetch_new_triggered_messages (channel_id : string) : M S (list Item.t) :=
  try_except
    (result <- history channel_id 100 ;;
     match result with
     | None => ret []
     | Some messages =>
         let channel_name := get_channel_name channel_id in
         messages_loop channel_id channel_name messages []
     end)
    is_Exception
    (fun _ => ret []).

(** *** Writing to the sheet *)

Definition execute_get (spreadsheetId range : string) : M S (list (list string)) :=
  fun w =>
    let '(r, s) := values_get service spreadsheetId range (sheet w) in
    (match r with inl f => inl (exn_of_failure f) | inr values => inr values end,
     set_sheet s (ValuesGet spreadsheetId range) w).

Definition execute_append (spreadsheetId range : string) (values : list (list string))
    : M S Z :=
  fun w =>
    let '(r, s) := values_append service spreadsheetId range values (sheet w) in
    (match r with inl f => inl (exn_of_failure f) | inr cells => inr cells end,
     set_sheet s (ValuesAppend spreadsheetId range "RAW" "INSERT_ROWS" values) w).

(** [append_to_sheet] *)
Definition append_to_sheet (data : list Item.t) : M S bool :=
  match data with
  | [] => ret true
  | _ :: _ =>
      try_except
        (let rows := row_of <$> data in
         try_except
           (values <- execute_get SPREADSHEET_ID (SHEET_NAME +:+ "!A1:H1") ;;
            match values with
            | [] =>
                execute_append SPREADSHEET_ID (SHEET_NAME +:+ "!A1") [headers] ;;
                ret tt
            | _ :: _ => ret tt
            end)
           is_HttpError
           (fun _ => ret tt) ;;
         updated_cells <- execute_append SPREADSHEET_ID (SHEET_NAME +:+ "!A:H") rows ;;
         ret true)
        is_Exception
        (fun _ => ret false)
  end.

(** *** One cycle *)

(** [run_monitor_cycle]; [now] is the clock read by [_save_state]. *)
Definition run_monitor_cycle (now : string) : M S Z :=
  try_except
    (new_messages <- fetch_new_triggered_messages DEFAULT_CHANNEL_ID ;;
     match new_messages with
     | _ :: _ =>
         success <- append_to_sheet new_messages ;;
         if success : bool then
           _save_state now ;;
           ret (Z.of_nat (length new_messages))
         else ret 0
     | [] => ret 0
     end)
    is_Exception
    (fun _ => ret 0).

End Monitor.

(** ** Concrete services for the examples *)

Module Demo.

(** A sheet that keeps its rows, with switches that make its requests
    fail. *)
Record store := Store {
  rows : list (list string);
  get_fails : option failure;
  append_fails : option failure }.

Definition service : sheets_service store := {|
  values_get _ _ s :=
    match get_fails s with
    | Some f => (inl f, s)
    | None => (inr (take 1 (rows s)), s)
    end;
  values_append _ _ values s :=
    match append_fails s with
    | Some f => (inl f, s)
    | None =>
        (inr (Z.of_nat (length (concat values))),
         Store (rows s ++ values) (get_fails s) (append_fails s))
    end |}.

(** Decimal digits, as a number. *)
Fixpoint decimal (s : string) (acc : Z) : option Z :=
  match s with
  | EmptyString => Some acc
  | String c rest =>
      if Datetime.is_digit c
      then decimal rest (10 * acc + (Z.of_N (N_of_ascii c) - 48))
      else None
  end.

Fixpoint split_at_point (s : string) : string * option string :=
  match s with
  | EmptyString => (EmptyString, None)
  | String c rest =>
      if Ascii.eqb c "."
      then (EmptyString, Some rest)
      else let '(a, b) := split_at_point rest in (String c a, b)
  end.

(** [float_seconds] on the timestamps that Slack issues: decimal digits
    for seconds below 2^32, then possibly a point and at most six digits,
    on which [float] is exact to the microsecond.  On every other string
    it answers [None]; the examples use it on strings of that form and on
    strings that [float] rejects. *)
Definition float_seconds (s : string) : option Z :=
  let '(whole, frac) := split_at_point s in
  match whole, decimal whole 0, decimal (default "" frac) 0 with
  | String _ _, Some n, Some _ =>
      if (n <? 4294967296) && (Nat.leb (String.length (default "" frac)) 6)
      then Some n else None
  | _, _, _ => None
  end.

(** A workspace with one user and one channel, whose history is
    [messages]. *)
Definition slack (messages : list Message.t) : slack_client := {|
  conversations_history _ _ := Ok messages;
  users_info u :=
    if decide (u = "U1") then Ok (User.mk (Some "") (Some "Ada L.") (Some "ada"))
    else NotOk;
  conversations_info c :=
    if decide (c = DEFAULT_CHANNEL_ID) then Ok (Channel.mk (Some "requests"))
    else Raised;
  chat_getPermalink _ t := Ok (Some ("https://slack.example/p" +:+ t));
  conversations_replies _ _ := Ok [] |}.

Definition reacted (names : list string) : list Reaction.t :=
  (fun n => Reaction.mk (Some n)) <$> names.

Definition message_A : Message.t :=
  Message.mk (Some "1700000000.000100") (Some "U1") (Some "no reaction here") [] None.
Definition message_B : Message.t :=
  Message.mk (Some "1700000100.000200") (Some "U1") (Some "please file the form")
    (reacted ["eyes"; "form"]) None.
Definition message_C : Message.t :=
  Message.mk (Some "1700000200.000300") (Some "U2") (Some "box question")
    (reacted ["box-apps"]) None.

Definition empty_store : store := Store [] None None.

Definition fresh (pm : gset string) (s : store) (ft : fault) : world store :=
  World pm Missing ft s [].

End Demo.

(** * The vocabulary of the properties *)

(** The reaction names of a message that are trigger emojis, in the order
    of the message's own reactions. *)
Definition matching (message : Message.t) : list string :=
  filter (.∈ TRIGGER_EMOJIS) (omap Reaction.name (Message.reactions message)).

(** A message is accepted when it is not seen yet and carries a trigger
    emoji. *)
Definition accepted (pm : gset string) (message : Message.t) : bool :=
  bool_decide (_get_message_id message ∉ pm)
  && bool_decide (matching message ≠ []).

(** [self.processed_messages] after the loop. *)
Fixpoint seen_after (messages : list Message.t) (pm : gset string) : gset string :=
  match messages with
  | [] => pm
  | message :: rest =>
      if accepted pm message
      then seen_after rest ({[_get_message_id message]} ∪ pm)
      else seen_after rest pm
  end.

(** The requests of [append_to_sheet]. *)
Definition first_row_request : request :=
  ValuesGet SPREADSHEET_ID "Sheet2!A1:H1".
Definition header_request : request :=
  ValuesAppend SPREADSHEET_ID "Sheet2!A1" "RAW" "INSERT_ROWS" [headers].
Definition rows_request (rows : list (list string)) : request :=
  ValuesAppend SPREADSHEET_ID "Sheet2!A:H" "RAW" "INSERT_ROWS" rows.

(** The document that [_save_state] writes. *)
Definition state_document (pm : gset string) (now : string) : json :=
  JObj [ ("processed_messages", JArr (JStr <$> elements pm));
         ("last_check_time", JStr now) ].

(** The rows that a list of requests appends below the header: the values
    of the appends to the range [A:H]. *)
Definition data_rows (rqs : list request) : list (list string) :=
  rqs ≫= (fun rq =>
    match rq with
    | ValuesAppend _ range _ _ values =>
        if decide (range = "Sheet2!A:H") then values else []
    | ValuesGet _ _ => []
    end).

(** The number of characters of a string. *)
Fixpoint char_count (s : string) : nat :=
  match s with
  | EmptyString => O
  | String c rest =>
      if PyStr.is_continuation c then char_count rest else Datatypes.S (char_count rest)
  end.

(** A string whose first byte, if any, begins a character. *)
Definition starts_character (s : string) : Prop :=
  match s with
  | EmptyString => True
  | String c _ => PyStr.is_continuation c = false
  end.

(** A date and time of day of the calendar, in the years 1 to 9999. *)
Definition valid_datetime (dt : Datetime.t) : Prop :=
  1 <= Datetime.year dt <= 9999 /\ 1 <= Datetime.month dt <= 12
  /\ 1 <= Datetime.day dt <= 31 /\ 0 <= Datetime.hour dt <= 23
  /\ 0 <= Datetime.minute dt <= 59 /\ 0 <= Datetime.second dt <= 59.

(** The value of a decimal digit, and of a string of them. *)
Definition digit_value (c : ascii) : Z := Z.of_N (N_of_ascii c) - 48.

Fixpoint number (s : string) (acc : Z) : Z :=
  match s with
  | EmptyString => acc
  | String c rest => number rest (10 * acc + digit_value c)
  end.

(** The fields read back from a text laid out as
    [YYYY-MM-DD HH:MM:SS UTC]. *)
Definition read_fields (s : string) : Datetime.t :=
  Datetime.mk (number (String.substring 0 4 s) 0) (number (String.substring 5 2 s) 0)
    (number (String.substring 8 2 s) 0) (number (String.substring 11 2 s) 0)
    (number (String.substring 14 2 s) 0) (number (String.substring 17 2 s) 0).

Section Vocabulary.

Context (slack : slack_client) {S : Type} (service : sheets_service S).
Context (float_seconds : string -> option Z).

(** The items that the loop appends. *)
Fixpoint items_after (channel_id channel_name : string) (messages : list Message.t)
    (pm : gset string) : list Item.t :=
  match messages with
  | [] => []
  | message :: rest =>
      let message_id := _get_message_id message in
      if accepted pm message
      then new_item slack float_seconds channel_id channel_name message message_id
             (matching message)
           :: items_after channel_id channel_name rest ({[message_id]} ∪ pm)
      else items_after channel_id channel_name rest pm
  end.

(** The messages that one fetch sees. *)
Definition source (channel_id : string) : list Message.t :=
  match conversations_history slack channel_id 100 with
  | Ok messages => messages
  | NotOk | Raised => []
  end.

(** The items of one fetch, and the seen set that it leaves. *)
Definition fetched (channel_id : string) (pm : gset string) : list Item.t :=
  items_after channel_id (get_channel_name slack channel_id) (source channel_id) pm.

(** The one append of all the rows, and the verdict that follows from
    it. *)
Definition batched_append (rows : list (list string)) (w : world S)
    : (exn + bool) * world S :=
  let '(answer, s) := values_append service SPREADSHEET_ID "Sheet2!A:H" rows (sheet w) in
  (inr (if answer is inr _ then true else false), set_sheet s (rows_request rows) w).

End Vocabulary.

(** ** What reaches the sheet *)

Section Delivery.

Context {S : Type} (service : sheets_service S).

(** One request, executed on the store: whether the service answers
    it, and the store that it leaves. *)
Definition execute (rq : request) (s : S) : bool * S :=
  match rq with
  | ValuesGet id range =>
      let '(answer, s') := values_get service id range s in
      (if answer is inr _ then true else false, s')
  | ValuesAppend id range _ _ values =>
      let '(answer, s') := values_append service id range values s in
      (if answer is inr _ then true else false, s')
  end.

(** The store after the requests [rqs], executed in their order from
    the store [s]. *)
Fixpoint store_after (rqs : list request) (s : S) : S :=
  match rqs with
  | [] => s
  | rq :: rest => store_after rest (execute rq s).2
  end.

(** The rows that reach the sheet: the data rows of the requests among
    [rqs] that the service answers; a request that it refuses delivers
    nothing. *)
Fixpoint delivered (rqs : list request) (s : S) : list (list string) :=
  match rqs with
  | [] => []
  | rq :: rest =>
      (if (execute rq s).1 then data_rows [rq] else []) ++ delivered rest (execute rq s).2
  end.

(** The service answers every request of [rqs]. *)
Fixpoint all_answered (rqs : list request) (s : S) : bool :=
  match rqs with
  | [] => true
  | rq :: rest => (execute rq s).1 && all_answered rest (execute rq s).2
  end.

End Delivery.

(** ** The worlds of the examples *)

Definition demo_now : string := "2026-01-01T00:00:00+00:00".

(** The scenario of three messages: A without reaction, B with the
    reaction [form], C with the reaction [box-apps] and seen before. *)
Definition demo_slack : slack_client :=
  Demo.slack [Demo.message_A; Demo.message_B; Demo.message_C].

Definition demo_seen : gset string := {[ _get_message_id Demo.message_C ]}.

Definition demo_cycle (w : world Demo.store) : (exn + Z) * world Demo.store :=
  run_monitor_cycle demo_slack Demo.service Demo.float_seconds demo_now w.

Definition demo_fetch (w : world Demo.store) : (exn + list Item.t) * world Demo.store :=
  fetch_new_triggered_messages demo_slack Demo.float_seconds DEFAULT_CHANNEL_ID w.

Definition item_B : Item.t :=
  Item.mk "ec64e99096c766c6ecd669441686348b" "2023-11-14 22:15:00 UTC" "Ada L."
    "#requests" "please file the form" "" ""
    "https://slack.example/p1700000100.000200" "form".

Definition refusing_store : Demo.store := Demo.Store [] None (Some Http).

Definition refused : world Demo.store := Demo.fresh demo_seen refusing_store NoFault.

Definition unwritable : world Demo.store :=
  Demo.fresh demo_seen Demo.empty_store DumpFails.

Definition fifty : string := "Fifty characters of text, with an é in it, up to: ".

Definition message_D : Message.t :=
  Message.mk (Some "1700000300.000400") (Some "U1") (Some (fifty +:+ "here it ends"))
    (Demo.reacted ["form"]) None.

Definition message_D' : Message.t :=
  Message.mk (Some "1700000300.000400") (Some "U1") (Some (fifty +:+ "HERE, and differently"))
    (Demo.reacted ["eyes"; "docgen"; "box-sign"]) (Some "1700000000.000100").

Definition message_E : Message.t :=
  Message.mk (Some "not-a-number") (Some "U1") (Some "what time is it")
    (Demo.reacted ["form"]) None.

Definition old_document : json := state_document demo_seen "2025-12-31T00:00:00+00:00".

Definition interrupted : world Demo.store :=
  World demo_seen (Document old_document) Interrupted Demo.empty_store [].

Definition unreadable_store : Demo.store := Demo.Store [headers] (Some Http) None.

Definition unreadable : world Demo.store := Demo.fresh ∅ unreadable_store NoFault.

(** * The start of the program *)

Module Auth.
(** The answer of [auth_test], which the program only prints. *)
Record t := mk { user : option string; team : option string }.
End Auth.

(** [GOOGLE_CREDENTIALS_PATH], as [os.path.exists],
    [Credentials.from_service_account_file] and [build] see it. *)
Inductive credentials :=
  | NoCredentials             (* no such file: [FileNotFoundError] *)
  | BadCredentials            (* the file is there, loading it raises *)
  | GoodCredentials.

(** [result.get('properties', {}).get('title', 'Unknown')]: [get] is a
    method of a dict only. *)
Definition title_of (result : json) : exn + json :=
  match result with
  | JObj members =>
      match default (JObj []) (member_lookup "properties" members) with
      | JObj properties => inr (default (JStr "Unknown") (member_lookup "title" properties))
      | _ => inl AttributeError
      end
  | _ => inl AttributeError
  end.

Section Startup.

Context (slack : slack_client) {S : Type} (service : sheets_service S).
Context (float_seconds : string -> option Z).
(** [await self.slack_client.auth_test()] *)
Context (auth_test : response Auth.t).
(** [self.sheets_service.spreadsheets().get(spreadsheetId=...).execute()],
    which answers a JSON document; the log [requests] keeps the requests
    on [values()] only. *)
Context (spreadsheets_get : string -> S -> (failure + json) * S).
Context (credentials_file : credentials).

(** [_init_google_sheets]: whatever is raised is printed and raised
    again. *)
Definition _init_google_sheets : M S unit :=
  try_except
    (match credentials_file with
     | NoCredentials => raise OSError
     | BadCredentials => raise OtherException
     | GoodCredentials => ret tt
     end)
    is_Exception
    (fun e => raise e).

(** [SlackSheetsMonitor()]: the whole of [__init__]. *)
Definition new_monitor : M S unit :=
  modify (set_processed_messages ∅) ;;
  _init_google_sheets ;;
  _load_state.

Definition execute_spreadsheets_get : M S json :=
  fun w =>
    let '(r, s) := spreadsheets_get SPREADSHEET_ID (sheet w) in
    (match r with inl f => inl (exn_of_failure f) | inr result => inr result end,
     World (processed_messages w) (state_file w) (write_fault w) s (requests w)).

(** The world after the spreadsheet has been asked for its title. *)
Definition asked (w : world S) : world S :=
  World (processed_messages w) (state_file w) (write_fault w)
    (spreadsheets_get SPREADSHEET_ID (sheet w)).2 (requests w).

(** [test_connections] *)
Definition test_connections : M S bool :=
  slack_ok <- try_except
                (match auth_test with
                 | Raised => raise SlackApiError
                 | NotOk => ret false
                 | Ok _ => ret true
                 end)
                is_Exception
                (fun _ => ret false) ;;
  if slack_ok : bool then
    try_except
      (result <- execute_spreadsheets_get ;;
       title <- lift (title_of result) ;;
       ret true)
      is_Exception
      (fun _ => ret false)
  else ret false.

(** [main]; [now] is the clock read by [_save_state]. *)
Definition main (now : string) : M S unit :=
  try_except
    (new_monitor ;;
     connected <- test_connections ;;
     if connected : bool then
       new_count <- run_monitor_cycle slack service float_seconds now ;;
       ret tt
     else ret tt)
    is_Exception
    (fun _ => ret tt).

End Startup.

(** * More vocabulary *)

(** The item that a message becomes when it is accepted. *)
Definition enriched (slack : slack_client) (float_seconds : string -> option Z)
    (channel_id : string) (message : Message.t) : Item.t :=
  new_item slack float_seconds channel_id (get_channel_name slack channel_id) message
    (_get_message_id message) (matching message).

(** A Slack client none of whose lookups answers. *)
Definition lookups_fail (slack : slack_client) : Prop :=
  (forall u, users_info slack u = Raised \/ users_info slack u = NotOk)
  /\ (forall c, conversations_info slack c = Raised \/ conversations_info slack c = NotOk)
  /\ (forall c t, chat_getPermalink slack c t = Raised \/ chat_getPermalink slack c t = NotOk)
  /\ (forall c t,
        conversations_replies slack c t = Raised \/ conversations_replies slack c t = NotOk).

(** The item of an accepted message when no lookup answers. *)
Definition fallback_item (float_seconds : string -> option Z) (channel_id : string)
    (message : Message.t) : Item.t :=
  Item.mk (_get_message_id message) (format_timestamp float_seconds message)
    (default "Unknown" (Message.user message)) channel_id
    (default "" (Message.text message)) "" "" ""
    (PyStr.join ", " (matching message)).

(** The spreadsheet has answered and a title can be read off the
    answer. *)
Definition has_title (answer : failure + json) : bool :=
  match answer with
  | inr result => if title_of result is inr _ then true else false
  | inl _ => false
  end.

(** What of an item does not come from a lookup. *)
Definition own_fields (item : Item.t) : string * string * string * string :=
  (Item.id item, Item.timestamp item, Item.reacted_message_text item,
   Item.trigger_emojis item).

(** The state file that [_save_state] leaves when it returns. *)
Definition saved_file {S : Type} (now : string) (w : world S) : file :=
  match write_fault w with
  | NoFault => Document (state_document (processed_messages w) now)
  | OpenFails => state_file w
  | DumpFails | Interrupted => Garbled
  end.

(** A lower-case hexadecimal digit. *)
Definition is_hex_digit (c : ascii) : bool :=
  let n := Z.of_N (N_of_ascii c) in
  ((48 <=? n) && (n <=? 57)) || ((97 <=? n) && (n <=? 102)).

Fixpoint all_chars (p : ascii -> bool) (s : string) : bool :=
  match s with
  | EmptyString => true
  | String c rest => p c && all_chars p rest
  end.

(** ** More worlds for the examples *)

(** The workspace of [Demo.slack] when no lookup answers. *)
Definition silent_slack (messages : list Message.t) : slack_client := {|
  conversations_history _ _ := Ok messages;
  users_info _ := Raised;
  conversations_info _ := NotOk;
  chat_getPermalink _ _ := Raised;
  conversations_replies _ _ := NotOk |}.

(** A workspace whose history cannot be fetched. *)
Definition down_slack : slack_client := {|
  conversations_history _ _ := Raised;
  users_info _ := Raised;
  conversations_info _ := Raised;
  chat_getPermalink _ _ := Raised;
  conversations_replies _ _ := Raised |}.

(** The monitor of [refused], with the state file that a cycle before
    has written. *)
Definition refused_with_state : world Demo.store :=
  World demo_seen (Document old_document) NoFault refusing_store [].

(** A state file written by hand: a name twice, a key that the monitor
    does not know. *)
Definition handwritten : world Demo.store :=
  World ∅
    (Document (JObj [ ("comment", JStr "edited by hand");
                      ("processed_messages", JArr (JStr <$> ["b2"; "a1"; "b2"])) ]))
    NoFault Demo.empty_store [].

(** A thread of three messages, the second of which carries a trigger
    emoji, and a workspace that knows the thread. *)
Definition thread_parent : Message.t :=
  Message.mk (Some "1700000050.000100") (Some "U2") (Some "who files the form?") []
    (Some "1700000050.000100").
Definition thread_reply : Message.t :=
  Message.mk (Some "1700000100.000200") (Some "U1") (Some "please file the form")
    (Demo.reacted ["form"]) (Some "1700000050.000100").
Definition thread_end : Message.t :=
  Message.mk (Some "1700000150.000250") (Some "U2") (Some "done") []
    (Some "1700000050.000100").

Definition threaded_slack : slack_client := {|
  conversations_history _ _ := Ok [thread_reply];
  users_info _ := Ok (User.mk None None (Some ""));
  conversations_info _ := NotOk;
  chat_getPermalink _ _ := NotOk;
  conversations_replies _ t :=
    if decide (t = "1700000050.000100")
    then Ok [thread_parent; thread_reply; thread_end]
    else NotOk |}.

(** A spreadsheet that answers with its title, and the program started
    on it with an empty sheet and no state file. *)
Definition titled (id : string) (s : Demo.store) : (failure + json) * Demo.store :=
  (inr (JObj [("properties", JObj [("title", JStr "Requests")])]), s).

Definition demo_main (auth_test : response Auth.t) (credentials_file : credentials)
    : (exn + unit) * world Demo.store :=
  main demo_slack Demo.service Demo.float_seconds auth_test titled credentials_file
    demo_now (Demo.fresh ∅ Demo.empty_store NoFault).

(** * Properties *)

(** ** The trigger filter *)

Lemma empty_name_no_trigger : "" ∉ TRIGGER_EMOJIS.
Proof. by vm_compute. Qed.

Lemma trigger_loop_filter (reactions : list Reaction.t) (found : list string) :
  trigger_loop reactions found
  = found ++ filter (.∈ TRIGGER_EMOJIS) (omap Reaction.name reactions).
Proof.
  revert found. induction reactions as [|[name] rest IH]; intros found; simpl.
  - by rewrite app_nil_r.
  - destruct name as [n|]; simpl.
    + rewrite filter_cons. destruct (decide (n ∈ TRIGGER_EMOJIS)).
      * rewrite IH, <- app_assoc. reflexivity.
      * apply IH.
    + destruct (decide ("" ∈ TRIGGER_EMOJIS)) as [Hin|_].
      * destruct (empty_name_no_trigger Hin).
      * apply IH.
Qed.

Lemma has_trigger_emoji_matching (message : Message.t) :
  has_trigger_emoji message = matching message.
Proof. unfold has_trigger_emoji. by rewrite trigger_loop_filter. Qed.

(** ** The loop of [fetch_new_triggered_messages], as two functions *)

Lemma accepted_true (pm : gset string) (message : Message.t) :
  accepted pm message = true
  <-> (_get_message_id message ∉ pm) /\ matching message ≠ [].
Proof.
  unfold accepted. rewrite andb_true_iff, !bool_decide_eq_true. reflexivity.
Qed.

Lemma accepted_false (pm : gset string) (message : Message.t) :
  accepted pm message = false
  <-> _get_message_id message ∈ pm \/ matching message = [].
Proof.
  unfold accepted. rewrite andb_false_iff, !bool_decide_eq_false. split.
  - intros [H|H]; [left|right].
    + destruct (decide (_get_message_id message ∈ pm)); [done|]. by destruct H.
    + destruct (matching message); [done|]. by destruct H.
  - intros [H|H]; [left|right]; [by intros Hn | by intros Hn].
Qed.

(** The seen set only grows. *)
Lemma seen_after_mono (messages : list Message.t) (pm : gset string) :
  pm ⊆ seen_after messages pm.
Proof.
  revert pm. induction messages as [|message rest IH]; intros pm; cbn; [done|].
  destruct (accepted pm message); [|apply IH].
  etrans; [|apply IH]. set_solver.
Qed.

(** After the loop no message of the list is accepted any more. *)
Lemma seen_after_settles (messages : list Message.t) (pm : gset string)
    (message : Message.t) :
  message ∈ messages -> accepted (seen_after messages pm) message = false.
Proof.
  revert pm. induction messages as [|m rest IH]; intros pm Hin.
  - by apply elem_of_nil in Hin.
  - apply elem_of_cons in Hin as [->|Hin]; cbn.
    + apply accepted_false.
      destruct (accepted pm m) eqn:Ha.
      * left. apply (seen_after_mono rest). set_solver.
      * apply accepted_false in Ha as [Hs|Hm]; [left|by right].
        by apply (seen_after_mono rest).
    + destruct (accepted pm m); by apply IH.
Qed.

Section Loop.

Context (slack : slack_client) {S : Type} (float_seconds : string -> option Z).

Abbreviation item_of := (new_item slack float_seconds).
Abbreviation loop := (messages_loop (S:=S) slack float_seconds).

Lemma messages_loop_step (channel_id channel_name : string) (message : Message.t)
    (rest : list Message.t) (new : list Item.t) (w : world S) :
  loop channel_id channel_name (message :: rest) new w
  = if accepted (processed_messages w) message
    then loop channel_id channel_name rest
           (new ++ [item_of channel_id channel_name message
                      (_get_message_id message) (matching message)])
           (set_processed_messages
              ({[_get_message_id message]} ∪ processed_messages w) w)
    else loop channel_id channel_name rest new w.
Proof.
  unfold accepted. cbn [messages_loop]. unfold bind at 1, gets at 1.
  rewrite has_trigger_emoji_matching.
  destruct (decide (_get_message_id message ∈ processed_messages w)) as [Hin|Hout].
  - rewrite bool_decide_eq_false_2 by (intros Hn; exact (Hn Hin)). reflexivity.
  - rewrite (bool_decide_eq_true_2 _ Hout). cbn [andb].
    destruct (matching message) as [|e es] eqn:Hm.
    + rewrite bool_decide_eq_false_2 by (intros Hn; exact (Hn eq_refl)). reflexivity.
    + rewrite bool_decide_eq_true_2 by discriminate. reflexivity.
Qed.

Lemma messages_loop_spec (channel_id channel_name : string)
    (messages : list Message.t) (new : list Item.t) (w : world S) :
  loop channel_id channel_name messages new w
  = (inr (new ++ items_after slack float_seconds channel_id channel_name messages (processed_messages w)),
     set_processed_messages (seen_after messages (processed_messages w)) w).
Proof.
  revert new w. induction messages as [|message rest IH]; intros new w.
  - cbn. rewrite app_nil_r. by destruct w.
  - rewrite messages_loop_step. cbn [seen_after items_after].
    destruct (accepted (processed_messages w) message).
    + rewrite IH. cbn. rewrite <- app_assoc. reflexivity.
    + apply IH.
Qed.

Lemma item_id (channel_id channel_name : string) (message : Message.t)
    (message_id : string) (trigger_emojis : list string) :
  Item.id (item_of channel_id channel_name message message_id trigger_emojis)
  = message_id.
Proof.
  unfold new_item. by destruct (thread_context slack channel_id message).
Qed.


Lemma item_timestamp (channel_id channel_name : string) (message : Message.t)
    (message_id : string) (trigger_emojis : list string) :
  Item.timestamp (item_of channel_id channel_name message message_id trigger_emojis)
  = format_timestamp float_seconds message.
Proof.
  unfold new_item. by destruct (thread_context slack channel_id message).
Qed.

(** Where nothing is accepted the loop changes nothing and yields
    nothing. *)
Lemma loop_settled (channel_id channel_name : string) (messages : list Message.t)
    (pm : gset string) :
  (forall message, message ∈ messages -> accepted pm message = false) ->
  seen_after messages pm = pm
  /\ items_after slack float_seconds channel_id channel_name messages pm = [].
Proof.
  induction messages as [|m rest IH]; intros Hall; cbn; [done|].
  rewrite (Hall m) by set_solver. apply IH. intros m' Hin. apply Hall. set_solver.
Qed.

(** The fingerprints of the items of one loop: those of the messages that
    carry a trigger emoji and were not seen before the loop. *)
Lemma items_after_ids (channel_id channel_name : string) (messages : list Message.t)
    (pm : gset string) (x : string) :
  x ∈ Item.id <$> items_after slack float_seconds channel_id channel_name messages pm
  <-> (x ∉ pm) /\ exists message,
        message ∈ messages /\ _get_message_id message = x /\ matching message ≠ [].
Proof.
  revert pm. induction messages as [|m rest IH]; intros pm; cbn.
  - split; [by intros ?%elem_of_nil|]. intros (_ & m & Hin & _). by apply elem_of_nil in Hin.
  - destruct (accepted pm m) eqn:Ha.
    + apply accepted_true in Ha as [Hs Hm]. rewrite fmap_cons, item_id, elem_of_cons, IH.
      split.
      * intros [->|(Hx & m' & Hin & Hid & Hm')].
        -- split; [done|]. exists m. set_solver.
        -- split; [set_solver|]. exists m'. set_solver.
      * intros (Hx & m' & Hin & Hid & Hm').
        destruct (decide (x = _get_message_id m)) as [->|Hne]; [by left|right].
        split; [set_solver|]. exists m'. repeat split; [|done..].
        apply elem_of_cons in Hin as [->|Hin]; [congruence|done].
    + rewrite IH. apply accepted_false in Ha. split.
      * intros (Hx & m' & Hin & Hid & Hm'). split; [done|]. exists m'. set_solver.
      * intros (Hx & m' & Hin & Hid & Hm'). split; [done|]. exists m'.
        repeat split; [|done..].
        apply elem_of_cons in Hin as [->|Hin]; [|done].
        destruct Ha as [Hs|Hm]; [rewrite Hid in Hs; by destruct Hx | by destruct Hm'].
Qed.

Lemma items_after_NoDup (channel_id channel_name : string) (messages : list Message.t)
    (pm : gset string) :
  NoDup (Item.id <$> items_after slack float_seconds channel_id channel_name messages pm).
Proof.
  revert pm. induction messages as [|m rest IH]; intros pm; cbn; [constructor|].
  destruct (accepted pm m); [|apply IH].
  rewrite fmap_cons, item_id. constructor; [|apply IH].
  rewrite items_after_ids. intros [Hx _]. set_solver.
Qed.

(** Every item of the loop has its fingerprint in the seen set left by
    the loop. *)
Lemma items_after_seen (channel_id channel_name : string) (messages : list Message.t)
    (pm : gset string) (item : Item.t) :
  item ∈ items_after slack float_seconds channel_id channel_name messages pm ->
  Item.id item ∈ seen_after messages pm /\ Item.id item ∉ pm.
Proof.
  revert pm. induction messages as [|m rest IH]; intros pm; cbn.
  - by intros ?%elem_of_nil.
  - destruct (accepted pm m) eqn:Ha; [|apply IH].
    apply accepted_true in Ha as [Hs _].
    intros [->|Hin]%elem_of_cons.
    + rewrite item_id. split; [|done]. apply (seen_after_mono rest). set_solver.
    + apply IH in Hin as [H1 H2]. split; [done|set_solver].
Qed.

End Loop.

(** ** The methods, as equations *)

Section Methods.

Context (slack : slack_client) {S : Type} (service : sheets_service S).
Context (float_seconds : string -> option Z).

Abbreviation fetch := (fetch_new_triggered_messages (S:=S) slack float_seconds).
Abbreviation append := (append_to_sheet service).
Abbreviation cycle := (run_monitor_cycle slack service float_seconds).

Lemma fetch_spec (channel_id : string) (w : world S) :
  fetch channel_id w
  = (inr (fetched slack float_seconds channel_id (processed_messages w)),
     set_processed_messages
       (seen_after (source slack channel_id) (processed_messages w)) w).
Proof.
  unfold fetch_new_triggered_messages, fetched, source, try_except, bind, history.
  destruct (conversations_history slack channel_id 100) as [| |messages]; cbn.
  - by destruct w.
  - by destruct w.
  - rewrite messages_loop_spec. reflexivity.
Qed.

Lemma append_to_sheet_cases (item : Item.t) (data : list Item.t) (w : world S) :
  append (item :: data) w
  = let rows := row_of <$> item :: data in
    match values_get service SPREADSHEET_ID "Sheet2!A1:H1" (sheet w) with
    | (inl Transport, s1) => (inr false, set_sheet s1 first_row_request w)
    | (inl Http, s1) | (inr (_ :: _), s1) =>
        batched_append service rows (set_sheet s1 first_row_request w)
    | (inr [], s1) =>
        let w1 := set_sheet s1 first_row_request w in
        match values_append service SPREADSHEET_ID "Sheet2!A1" [headers] s1 with
        | (inl Transport, s2) => (inr false, set_sheet s2 header_request w1)
        | (_, s2) => batched_append service rows (set_sheet s2 header_request w1)
        end
    end.
Proof.
  unfold append_to_sheet, batched_append, try_except, bind, execute_get, execute_append,
    first_row_request, header_request, rows_request.
  change (SHEET_NAME +:+ "!A1:H1") with "Sheet2!A1:H1".
  change (SHEET_NAME +:+ "!A1") with "Sheet2!A1".
  change (SHEET_NAME +:+ "!A:H") with "Sheet2!A:H".
  cbn zeta.
  destruct (values_get service SPREADSHEET_ID "Sheet2!A1:H1" (sheet w))
    as [[[|]|[|first values]] s1]; cbn -[row_of headers fmap].
  - by destruct (values_append service SPREADSHEET_ID "Sheet2!A:H" _ s1) as [[[|]|cells] s3].
  - reflexivity.
  - destruct (values_append service SPREADSHEET_ID "Sheet2!A1" [headers] s1)
      as [[[|]|cells] s2]; cbn -[row_of headers fmap].
    + by destruct (values_append service SPREADSHEET_ID "Sheet2!A:H" _ s2) as [[[|]|c] s3].
    + reflexivity.
    + by destruct (values_append service SPREADSHEET_ID "Sheet2!A:H" _ s2) as [[[|]|c] s3].
  - by destruct (values_append service SPREADSHEET_ID "Sheet2!A:H" _ s1) as [[[|]|cells] s3].
Qed.

(** [append_to_sheet] returns; it touches neither the seen set nor the
    state file. *)
Lemma append_to_sheet_returns (data : list Item.t) (w : world S) :
  exists (success : bool) (w' : world S),
    append data w = (inr success, w')
    /\ processed_messages w' = processed_messages w
    /\ state_file w' = state_file w
    /\ write_fault w' = write_fault w.
Proof.
  destruct data as [|item data]; [by exists true, w|].
  rewrite append_to_sheet_cases. unfold batched_append. cbn zeta.
  destruct (values_get service SPREADSHEET_ID "Sheet2!A1:H1" (sheet w))
    as [[[|]|[|first values]] s1]; cbn -[row_of headers fmap].
  - destruct (values_append service _ _ _ s1) as [answer s3]. by eexists _, _.
  - by eexists _, _.
  - destruct (values_append service SPREADSHEET_ID "Sheet2!A1" [headers] s1)
      as [[[|]|cells] s2]; cbn -[row_of headers fmap].
    + destruct (values_append service _ _ _ s2) as [answer s3]. by eexists _, _.
    + by eexists _, _.
    + destruct (values_append service _ _ _ s2) as [answer s3]. by eexists _, _.
  - destruct (values_append service _ _ _ s1) as [answer s3]. by eexists _, _.
Qed.

Lemma append_to_sheet_keeps (data : list Item.t) (w w' : world S) (r : exn + bool) :
  append data w = (r, w') ->
  (exists success, r = inr success)
  /\ processed_messages w' = processed_messages w
  /\ state_file w' = state_file w
  /\ write_fault w' = write_fault w.
Proof.
  intros H. destruct (append_to_sheet_returns data w) as (b & w'' & Hr & Hk).
  rewrite H in Hr. injection Hr as -> ->. split; [by exists b|done].
Qed.

Lemma save_state_cases (now : string) (w : world S) :
  _save_state now w
  = match write_fault w with
    | NoFault =>
        (inr tt, set_state_file (Document (state_document (processed_messages w) now)) w)
    | OpenFails => (inr tt, w)
    | DumpFails => (inr tt, set_state_file Garbled w)
    | Interrupted => (inl KeyboardInterrupt, set_state_file Garbled w)
    end.
Proof.
  unfold _save_state, try_except, bind, gets, open_w, json_dump.
  destruct w as [pm f ft s rq]; by destruct ft.
Qed.

Lemma cycle_cases (now : string) (w : world S) :
  cycle now w
  = let items := fetched slack float_seconds DEFAULT_CHANNEL_ID (processed_messages w) in
    let w1 :=
      set_processed_messages
        (seen_after (source slack DEFAULT_CHANNEL_ID) (processed_messages w)) w in
    match items with
    | [] => (inr 0, w1)
    | _ :: _ =>
        match append items w1 with
        | (inr true, w2) =>
            match _save_state now w2 with
            | (inr _, w3) => (inr (Z.of_nat (length items)), w3)
            | (inl e, w3) => if is_Exception e then (inr 0, w3) else (inl e, w3)
            end
        | (inr false, w2) => (inr 0, w2)
        | (inl e, w2) => if is_Exception e then (inr 0, w2) else (inl e, w2)
        end
    end.
Proof.
  unfold run_monitor_cycle, try_except. unfold bind at 1. rewrite fetch_spec. cbn zeta.
  destruct (fetched slack float_seconds DEFAULT_CHANNEL_ID (processed_messages w)) as [|item items]; [done|].
  unfold bind at 1.
  destruct (append (item :: items) _) as [[e|[|]] w2]; [done| |done].
  unfold bind at 1.
  by destruct (_save_state now w2) as [[e|[]] w3].
Qed.

(** A second fetch over the same source slack finds nothing new. *)
Lemma fetch_again (channel_id : string) (w : world S) (pm : gset string) :
  seen_after (source slack channel_id) (processed_messages w) ⊆ pm ->
  fetched slack float_seconds channel_id pm = [] /\ seen_after (source slack channel_id) pm = pm.
Proof.
  intros Hsub. unfold fetched.
  destruct (loop_settled slack float_seconds channel_id
              (get_channel_name slack channel_id) (source slack channel_id) pm) as [H1 H2];
    [|done].
  intros message Hin.
  pose proof (seen_after_settles (source slack channel_id) (processed_messages w) message Hin) as Hs.
  apply accepted_false in Hs. apply accepted_false. destruct Hs; [left|by right].
  by apply Hsub.
Qed.

Lemma data_rows_app (rqs rqs' : list request) :
  data_rows (rqs ++ rqs') = data_rows rqs ++ data_rows rqs'.
Proof. apply bind_app. Qed.

(** What one [append_to_sheet] sends: all the rows at once, or none. *)
Lemma append_to_sheet_rows (item : Item.t) (data : list Item.t) (w w' : world S)
    (success : bool) :
  append (item :: data) w = (inr success, w') ->
  exists sent,
    data_rows (requests w') = data_rows (requests w) ++ sent
    /\ (sent = [] \/ sent = row_of <$> item :: data)
    /\ (success = true -> sent = row_of <$> item :: data).
Proof.
  rewrite append_to_sheet_cases. unfold batched_append. cbn zeta.
  assert (Hsent : forall rqs rq, rq = rows_request (row_of <$> item :: data) ->
            data_rows (rqs ++ [rq]) = data_rows rqs ++ (row_of <$> item :: data)).
  { intros rqs rq ->. rewrite data_rows_app. cbn -[row_of fmap]. by rewrite app_nil_r. }
  assert (Hnone : forall rqs rq, rq = first_row_request \/ rq = header_request ->
            data_rows (rqs ++ [rq]) = data_rows rqs).
  { intros rqs rq Hrq. rewrite data_rows_app. destruct Hrq as [-> | ->]; cbn; by rewrite app_nil_r. }
  destruct (values_get service SPREADSHEET_ID "Sheet2!A1:H1" (sheet w))
    as [[[|]|[|first values]] s1]; cbn -[row_of fmap headers data_rows].
  - destruct (values_append service _ _ _ s1) as [answer s3]. intros [= <- <-].
    exists (row_of <$> item :: data). cbn -[row_of fmap data_rows].
    rewrite (Hsent _ _ eq_refl), (Hnone _ _ (or_introl eq_refl)). eauto.
  - intros [= <- <-]. exists []. cbn -[data_rows].
    rewrite (Hnone _ _ (or_introl eq_refl)), app_nil_r. split_and!; [done | by left | done].
  - destruct (values_append service SPREADSHEET_ID "Sheet2!A1" [headers] s1)
      as [[[|]|cells] s2]; cbn -[row_of fmap headers data_rows].
    + destruct (values_append service _ _ _ s2) as [answer s3]. intros [= <- <-].
      exists (row_of <$> item :: data). cbn -[row_of fmap data_rows].
      rewrite (Hsent _ _ eq_refl), (Hnone _ _ (or_intror eq_refl)),
        (Hnone _ _ (or_introl eq_refl)). eauto.
    + intros [= <- <-]. exists []. cbn -[data_rows].
      rewrite (Hnone _ _ (or_intror eq_refl)), (Hnone _ _ (or_introl eq_refl)), app_nil_r.
      split_and!; [done | by left | done].
    + destruct (values_append service _ _ _ s2) as [answer s3]. intros [= <- <-].
      exists (row_of <$> item :: data). cbn -[row_of fmap data_rows].
      rewrite (Hsent _ _ eq_refl), (Hnone _ _ (or_intror eq_refl)),
        (Hnone _ _ (or_introl eq_refl)). eauto.
  - destruct (values_append service _ _ _ s1) as [answer s3]. intros [= <- <-].
    exists (row_of <$> item :: data). cbn -[row_of fmap data_rows].
    rewrite (Hsent _ _ eq_refl), (Hnone _ _ (or_introl eq_refl)). eauto.
Qed.

Lemma save_state_keeps (now : string) (w : world S) :
  processed_messages (_save_state now w).2 = processed_messages w
  /\ requests (_save_state now w).2 = requests w
  /\ sheet (_save_state now w).2 = sheet w.
Proof. rewrite save_state_cases. by destruct (write_fault w). Qed.

End Methods.

(** ** The monitor cycle *)

Section Cycle.

Context (slack : slack_client) {S : Type} (service : sheets_service S).
Context (float_seconds : string -> option Z).

Abbreviation fetch' := (fetch_new_triggered_messages (S:=S) slack float_seconds).
Abbreviation append' := (append_to_sheet service).
Abbreviation cycle' := (run_monitor_cycle slack service float_seconds).

(** C1, amended.  In a cycle whose sheet append returns false, the cycle
    returns 0 and the state file is left as it was; the fingerprints of
    the items accepted in that cycle are nevertheless in the in-memory
    seen set, where the fetch put them on acceptance, so a next fetch by
    the same monitor yields none of them again. *)
Theorem failed_append_marks_in_memory_only (now : string) (w w1 w2 : world S)
    (items : list Item.t) :
  fetch' DEFAULT_CHANNEL_ID w = (inr items, w1) ->
  append' items w1 = (inr false, w2) ->
  cycle' now w = (inr 0, w2)
  /\ state_file w2 = state_file w
  /\ (forall item, item ∈ items -> Item.id item ∈ processed_messages w2)
  /\ fetch' DEFAULT_CHANNEL_ID w2 = (inr [], w2).
Proof.
  rewrite fetch_spec. intros [= <- <-] Happend.
  destruct (append_to_sheet_keeps service _ _ _ _ Happend) as (_ & Hpm & Hsf & _).
  cbn in Hpm, Hsf.
  split_and!.
  - rewrite cycle_cases. cbn zeta.
    destruct (fetched slack float_seconds DEFAULT_CHANNEL_ID (processed_messages w))
      as [|item items] eqn:Hf; [discriminate Happend|].
    by rewrite Happend.
  - done.
  - intros item Hin. rewrite Hpm. by apply items_after_seen in Hin as [? _].
  - rewrite fetch_spec.
    destruct (fetch_again slack float_seconds DEFAULT_CHANNEL_ID w (processed_messages w2))
      as [-> ->]; [by rewrite Hpm|].
    by destruct w2.
Qed.

(** What one [append_to_sheet] delivers: all the rows when it returns
    true, none when it returns false; and it returns true when the
    service answers all that it is asked. *)
Lemma append_to_sheet_delivery (item : Item.t) (data : list Item.t) (w : world S) :
  let r := append_to_sheet service (item :: data) w in
  exists new,
    requests r.2 = requests w ++ new
    /\ sheet r.2 = store_after service new (sheet w)
    /\ delivered service new (sheet w)
       = (if r.1 is inr true then row_of <$> item :: data else [])
    /\ (all_answered service new (sheet w) = true -> r.1 = inr true).
Proof.
  cbn zeta. rewrite append_to_sheet_cases. unfold batched_append. cbn zeta.
  destruct (values_get service SPREADSHEET_ID "Sheet2!A1:H1" (sheet w))
    as [[[|]|[|first values]] s1] eqn:Hget; cbn -[row_of fmap headers].
  - destruct (values_append service SPREADSHEET_ID "Sheet2!A:H" (row_of <$> item :: data) s1)
      as [answer s3] eqn:Hrows. cbn -[row_of fmap headers].
    exists [first_row_request; rows_request (row_of <$> item :: data)].
    rewrite <- app_assoc.
    cbn -[row_of fmap headers]. rewrite Hget. cbn -[row_of fmap headers]. rewrite Hrows.
    cbn -[row_of fmap headers].
    split_and!; [done|done| |done]. destruct answer; by rewrite ?app_nil_r.
  - exists [first_row_request]. cbn. rewrite Hget. cbn. done.
  - destruct (values_append service SPREADSHEET_ID "Sheet2!A1" [headers] s1)
      as [[[|]|cells] s2] eqn:Hheader; cbn -[row_of fmap headers].
    + destruct (values_append service SPREADSHEET_ID "Sheet2!A:H" (row_of <$> item :: data) s2)
        as [answer s3] eqn:Hrows. cbn -[row_of fmap headers].
      exists [first_row_request; header_request; rows_request (row_of <$> item :: data)].
      rewrite <- !app_assoc.
      cbn -[row_of fmap headers]. rewrite Hget. cbn -[row_of fmap headers]. rewrite Hheader.
      cbn -[row_of fmap headers]. rewrite Hrows. cbn -[row_of fmap headers].
      split_and!; [done|done| |done]. destruct answer; by rewrite ?app_nil_r.
    + exists [first_row_request; header_request]. rewrite <- !app_assoc.
      cbn -[headers]. rewrite Hget. cbn -[headers]. rewrite Hheader. cbn -[headers]. done.
    + destruct (values_append service SPREADSHEET_ID "Sheet2!A:H" (row_of <$> item :: data) s2)
        as [answer s3] eqn:Hrows. cbn -[row_of fmap headers].
      exists [first_row_request; header_request; rows_request (row_of <$> item :: data)].
      rewrite <- !app_assoc.
      cbn -[row_of fmap headers]. rewrite Hget. cbn -[row_of fmap headers]. rewrite Hheader.
      cbn -[row_of fmap headers]. rewrite Hrows. cbn -[row_of fmap headers].
      split_and!; [done|done| |]; destruct answer; by rewrite ?app_nil_r.
  - destruct (values_append service SPREADSHEET_ID "Sheet2!A:H" (row_of <$> item :: data) s1)
      as [answer s3] eqn:Hrows. cbn -[row_of fmap headers].
    exists [first_row_request; rows_request (row_of <$> item :: data)].
    rewrite <- app_assoc.
    cbn -[row_of fmap headers]. rewrite Hget. cbn -[row_of fmap headers]. rewrite Hrows.
    cbn -[row_of fmap headers].
    split_and!; [done|done| |]; destruct answer; by rewrite ?app_nil_r.
Qed.

(** What one cycle delivers. *)
Lemma cycle_delivery (now : string) (w : world S) :
  let r := run_monitor_cycle slack service float_seconds now w in
  let items := fetched slack float_seconds DEFAULT_CHANNEL_ID (processed_messages w) in
  exists new,
    requests r.2 = requests w ++ new
    /\ sheet r.2 = store_after service new (sheet w)
    /\ (delivered service new (sheet w) = []
        \/ delivered service new (sheet w) = row_of <$> items)
    /\ (forall n, r.1 = inr n -> n ≠ 0 ->
          delivered service new (sheet w) = row_of <$> items
          /\ n = Z.of_nat (length items))
    /\ (all_answered service new (sheet w) = true ->
          delivered service new (sheet w) = row_of <$> items
          /\ (write_fault w ≠ Interrupted -> r.1 = inr (Z.of_nat (length items)))).
Proof.
  cbn zeta. rewrite cycle_cases. cbn zeta.
  destruct (fetched slack float_seconds DEFAULT_CHANNEL_ID (processed_messages w))
    as [|item items] eqn:Hitems.
  { exists []. cbn. rewrite app_nil_r. split_and!; [done|done|by left| |done].
    intros n [= <-] Hn. by destruct Hn. }
  set (w1 := set_processed_messages _ w).
  destruct (append_to_sheet_delivery item items w1) as (new & Hrq & Hsheet & Hdel & Hall).
  cbn zeta in Hrq, Hsheet, Hdel, Hall.
  change (requests w1) with (requests w) in Hrq.
  change (sheet w1) with (sheet w) in Hsheet, Hdel, Hall.
  destruct (append_to_sheet service (item :: items) w1) as [r w2] eqn:Happend.
  destruct (append_to_sheet_keeps service _ _ _ _ Happend) as ([b ->] & _ & _ & Hfault).
  change (write_fault w1) with (write_fault w) in Hfault.
  cbn [fst snd] in Hrq, Hsheet, Hdel, Hall. exists new.
  destruct b.
  - rewrite save_state_cases, Hfault.
    destruct (write_fault w) eqn:Hw; cbn -[row_of fmap delivered store_after all_answered];
      (split_and!; [done|done|by right| |]);
      first [ by intros n [= <-] _ | by intros _ | discriminate
            | intros _; split; [done|]; by intros [] ].
  - cbn [fst snd]. split_and!; [done|done|by left| |].
    + intros n [= <-] Hn. by destruct Hn.
    + intros Ha. by specialize (Hall Ha).
Qed.

(** C2, amended.  Two cycles of one monitor over an unchanged source.
    The items of the first cycle have pairwise distinct fingerprints,
    one for each fingerprint that was not seen before and belongs to a
    message with a trigger emoji, and all of them are in the seen set
    afterwards, whether their rows reach the sheet or not.  Of the
    requests of the two cycles together the sheet takes the rows of
    these items once, all of them, or takes no row at all: it takes
    them when the first cycle returns another count than 0, and when
    it answers every request (the count is then the number of the
    items, unless the write of the state is interrupted).  The second
    cycle returns 0 and leaves the world as it found it: no request,
    no row, no change of the seen set. *)
Theorem two_cycles_emit_once_or_never (now1 now2 : string) (w : world S) :
  let items := fetched slack float_seconds DEFAULT_CHANNEL_ID (processed_messages w) in
  let first := run_monitor_cycle slack service float_seconds now1 w in
  let second := run_monitor_cycle slack service float_seconds now2 first.2 in
  (fetch_new_triggered_messages slack float_seconds DEFAULT_CHANNEL_ID w).1 = inr items
  /\ NoDup (Item.id <$> items)
  /\ (forall x, x ∈ Item.id <$> items
        <-> (x ∉ processed_messages w)
            /\ exists message, message ∈ source slack DEFAULT_CHANNEL_ID
                 /\ _get_message_id message = x /\ matching message ≠ [])
  /\ (forall item, item ∈ items -> Item.id item ∈ processed_messages first.2)
  /\ (exists new,
        requests second.2 = requests w ++ new
        /\ sheet second.2 = store_after service new (sheet w)
        /\ (delivered service new (sheet w) = []
            \/ delivered service new (sheet w) = row_of <$> items)
        /\ (forall n, first.1 = inr n -> n ≠ 0 ->
              delivered service new (sheet w) = row_of <$> items
              /\ n = Z.of_nat (length items))
        /\ (all_answered service new (sheet w) = true ->
              delivered service new (sheet w) = row_of <$> items
              /\ (write_fault w ≠ Interrupted ->
                  first.1 = inr (Z.of_nat (length items)))))
  /\ fetch_new_triggered_messages slack float_seconds DEFAULT_CHANNEL_ID first.2
     = (inr [], first.2)
  /\ second = (inr 0, first.2).
Proof.
  intros items first second.
  assert (Hpm : processed_messages first.2
                = seen_after (source slack DEFAULT_CHANNEL_ID) (processed_messages w)).
  { subst first. rewrite cycle_cases. cbn zeta. fold items.
    destruct items as [|item rest]; [done|].
    destruct (append_to_sheet service (item :: rest) _) as [r w2] eqn:Happend.
    destruct (append_to_sheet_keeps service _ _ _ _ Happend) as ([b ->] & Hk & _).
    cbn in Hk. destruct b; [|done].
    destruct (save_state_keeps now1 w2) as (Hk1 & _).
    destruct (_save_state now1 w2) as [[e|[]] w3]; cbn in Hk1 |- *.
    - destruct (is_Exception e); cbn; by rewrite Hk1.
    - by rewrite Hk1. }
  assert (Hagain : fetch_new_triggered_messages slack float_seconds DEFAULT_CHANNEL_ID first.2
                   = (inr [], first.2)).
  { rewrite fetch_spec.
    destruct (fetch_again slack float_seconds DEFAULT_CHANNEL_ID w (processed_messages first.2))
      as [-> ->]; [by rewrite Hpm|].
    by destruct (first.2). }
  assert (Hsecond : second = (inr 0, first.2)).
  { subst second. rewrite cycle_cases. cbn zeta.
    destruct (fetch_again slack float_seconds DEFAULT_CHANNEL_ID w (processed_messages first.2))
      as [-> ->]; [by rewrite Hpm|].
    by destruct (first.2). }
  split_and!.
  - by rewrite fetch_spec.
  - apply items_after_NoDup.
  - apply items_after_ids.
  - intros item Hin. rewrite Hpm. by apply items_after_seen in Hin as [? _].
  - rewrite Hsecond. cbn [snd]. apply cycle_delivery.
  - exact Hagain.
  - exact Hsecond.
Qed.

(** C10.  When the write of the state file fails ([open] or [json.dump]
    raises), [_save_state] returns all the same; after a sheet append
    that returned true the cycle then returns the number of new items,
    and their fingerprints are in the in-memory seen set. *)
Theorem save_failure_does_not_propagate (now : string) (w w1 w2 : world S)
    (items : list Item.t) :
  write_fault w = OpenFails \/ write_fault w = DumpFails ->
  fetch' DEFAULT_CHANNEL_ID w = (inr items, w1) ->
  items ≠ [] ->
  append' items w1 = (inr true, w2) ->
  exists w3,
    _save_state now w2 = (inr tt, w3)
    /\ cycle' now w = (inr (Z.of_nat (length items)), w3)
    /\ processed_messages w3 = processed_messages w2
    /\ (forall item, item ∈ items -> Item.id item ∈ processed_messages w3)
    /\ state_file w3
       = match write_fault w with OpenFails => state_file w | _ => Garbled end.
Proof.
  intros Hfault. rewrite fetch_spec. intros [= <- <-] Hne Happend.
  destruct (append_to_sheet_keeps service _ _ _ _ Happend) as (_ & Hpm & Hsf & Hwf).
  cbn in Hpm, Hsf, Hwf.
  assert (Hsave : exists w3, _save_state now w2 = (inr tt, w3)
                    /\ processed_messages w3 = processed_messages w2
                    /\ state_file w3
                       = match write_fault w with
                         | OpenFails => state_file w
                         | _ => Garbled
                         end).
  { rewrite save_state_cases, Hwf. destruct Hfault as [-> | ->]; by eexists. }
  destruct Hsave as (w3 & Hsave & Hk & Hfile). exists w3. split_and!; [done| |done| |done].
  - rewrite cycle_cases. cbn zeta.
    destruct (fetched slack float_seconds DEFAULT_CHANNEL_ID (processed_messages w))
      as [|item rest] eqn:Hf; [done|].
    by rewrite Happend, Hsave.
  - intros item Hin. rewrite Hk, Hpm. by apply items_after_seen in Hin as [? _].
Qed.

End Cycle.

(** ** The fingerprint *)

(** [(p + t)[:n]] is [p] when [p] has [n] characters. *)
Lemma slice_to_prefix (p t : string) :
  starts_character t -> PyStr.slice_to (char_count p) (p +:+ t) = p.
Proof.
  intros Ht. induction p as [|c p IH].
  - change ("" +:+ t) with t. destruct t as [|c t]; [done|]. cbn in Ht |- *. by rewrite Ht.
  - change (String c p +:+ t) with (String c (p +:+ t)). cbn.
    destruct (PyStr.is_continuation c); cbn; by rewrite IH.
Qed.

(** [s[:n]] is [s] when [s] has at most [n] characters. *)
Lemma slice_to_short (n : nat) (s : string) :
  (char_count s <= n)%nat -> PyStr.slice_to n s = s.
Proof.
  revert n. induction s as [|c s IH]; intros n Hn; [done|]. cbn in Hn |- *.
  destruct (PyStr.is_continuation c).
  - by rewrite IH.
  - destruct n as [|n]; [lia|]. rewrite IH; [done|lia].
Qed.

(** C3.  The fingerprint is a function of the timestamp, the author id
    and the first 50 characters of the text (each taken as the empty
    string when missing): two messages that agree on these have the same
    fingerprint, whatever their reactions and thread are; in particular a
    message always has the fingerprint it had. *)
Theorem fingerprint_ignores_reactions (m1 m2 : Message.t) :
  default "" (Message.ts m1) = default "" (Message.ts m2) ->
  default "" (Message.user m1) = default "" (Message.user m2) ->
  PyStr.slice_to 50 (default "" (Message.text m1))
  = PyStr.slice_to 50 (default "" (Message.text m2)) ->
  _get_message_id m1 = _get_message_id m2.
Proof.
  intros Hts Huser Htext. unfold _get_message_id. cbn zeta.
  rewrite Hts, Huser, Htext. reflexivity.
Qed.

(** In particular the text counts up to its fiftieth character only. *)
Lemma fingerprint_of_first_fifty (ts user : option string) (p t1 t2 : string)
    (r1 r2 : list Reaction.t) (th1 th2 : option string) :
  char_count p = 50%nat -> starts_character t1 -> starts_character t2 ->
  _get_message_id (Message.mk ts user (Some (p +:+ t1)) r1 th1)
  = _get_message_id (Message.mk ts user (Some (p +:+ t2)) r2 th2).
Proof.
  intros Hp Ht1 Ht2. unfold _get_message_id.
  cbn [Message.ts Message.user Message.text default from_option]. unfold id.
  rewrite <- Hp, !slice_to_prefix by done. reflexivity.
Qed.

Section Filter.

Context (slack : slack_client) {S : Type} (float_seconds : string -> option Z).

Abbreviation loop' := (messages_loop (S:=S) slack float_seconds).


End Filter.

(** ** The timestamp column *)

(** Evaluates the table lookups and the leap-day corrections once the
    month is a numeral. *)
Ltac eval_month_tables :=
  repeat match goal with
  | |- context [Datetime.tbl ?l ?i] =>
      let v := eval vm_compute in (Datetime.tbl l i) in
      change (Datetime.tbl l i) with v
  | |- context [if ?b then 1 else 0] =>
      let v := eval vm_compute in (if b then 1 else 0) in
      change (if b then 1 else 0) with v
  end.

Lemma ord2ymd_valid (n : Z) :
  1 <= n <= Datetime._MAXORDINAL ->
  let '(y, m, d) := Datetime._ord2ymd n in
  1 <= y <= 9999 /\ 1 <= m <= 12 /\ 1 <= d <= 31.
Proof.
  unfold Datetime._MAXORDINAL, Datetime._ord2ymd, Datetime._DI400Y, Datetime._DI100Y,
    Datetime._DI4Y.
  intros Hn. cbn zeta.
  set (n400 := (n - 1) / 146097). set (r400 := (n - 1) mod 146097).
  set (n100 := r400 / 36524). set (r100 := r400 mod 36524).
  set (n4 := r100 / 1461). set (r4 := r100 mod 1461).
  set (n1 := r4 / 365). set (r1 := r4 mod 365).
  assert (H400 : n - 1 = 146097 * n400 + r400 /\ 0 <= r400 < 146097)
    by (subst n400 r400; split; [apply Z.div_mod; lia | apply Z.mod_pos_bound; lia]).
  assert (H100 : r400 = 36524 * n100 + r100 /\ 0 <= r100 < 36524)
    by (subst n100 r100; split; [apply Z.div_mod; lia | apply Z.mod_pos_bound; lia]).
  assert (H4 : r100 = 1461 * n4 + r4 /\ 0 <= r4 < 1461)
    by (subst n4 r4; split; [apply Z.div_mod; lia | apply Z.mod_pos_bound; lia]).
  assert (H1 : r4 = 365 * n1 + r1 /\ 0 <= r1 < 365)
    by (subst n1 r1; split; [apply Z.div_mod; lia | apply Z.mod_pos_bound; lia]).
  clearbody n400 r400 n100 r100 n4 r4 n1 r1.
  assert (Hb : 0 <= n400 <= 24 /\ 0 <= n100 <= 4 /\ 0 <= n4 <= 24 /\ 0 <= n1 <= 4) by lia.
  destruct ((n1 =? 4) || (n100 =? 4)) eqn:Hlast.
  - apply orb_true_iff in Hlast. rewrite !Z.eqb_eq in Hlast. lia.
  - apply orb_false_iff in Hlast. rewrite !Z.eqb_neq in Hlast.
    rewrite Z.shiftr_div_pow2 by lia. change (2 ^ 5) with 32.
    set (month := (r1 + 50) / 32).
    assert (Hm : r1 + 50 = 32 * month + (r1 + 50) mod 32 /\ 0 <= (r1 + 50) mod 32 < 32)
      by (subst month; split; [apply Z.div_mod; lia | apply Z.mod_pos_bound; lia]).
    clearbody month. set (k := (r1 + 50) mod 32) in Hm. clearbody k.
    destruct ((n1 =? 3) && (negb (n4 =? 24) || (n100 =? 3))) eqn:Hleap.
    + assert (Hcase : month = 1 \/ month = 2 \/ month = 3 \/ month = 4 \/ month = 5
                      \/ month = 6 \/ month = 7 \/ month = 8 \/ month = 9 \/ month = 10
                      \/ month = 11 \/ month = 12) by lia.
      apply andb_true_iff in Hleap as [Hn1 _]. apply Z.eqb_eq in Hn1.
      destruct Hcase as [->|[->|[->|[->|[->|[->|[->|[->|[->|[->|[->| ->]]]]]]]]]]];
        eval_month_tables;
        match goal with |- context [?a <? ?b] => destruct (Z.ltb_spec a b) end;
        cbv beta iota zeta; lia.
    + assert (Hcase : month = 1 \/ month = 2 \/ month = 3 \/ month = 4 \/ month = 5
                      \/ month = 6 \/ month = 7 \/ month = 8 \/ month = 9 \/ month = 10
                      \/ month = 11 \/ month = 12) by lia.
      destruct Hcase as [->|[->|[->|[->|[->|[->|[->|[->|[->|[->|[->| ->]]]]]]]]]]];
        eval_month_tables;
        match goal with |- context [?a <? ?b] => destruct (Z.ltb_spec a b) end;
        cbv beta iota zeta; lia.
Qed.

(** [_ord2ymd] gives the date whose ordinal is [n]. *)
Lemma ord2ymd_inverse (n : Z) :
  1 <= n <= Datetime._MAXORDINAL ->
  let '(y, m, d) := Datetime._ord2ymd n in Datetime._ymd2ord y m d = n.
Proof.
  unfold Datetime._MAXORDINAL, Datetime._ord2ymd, Datetime._DI400Y, Datetime._DI100Y,
    Datetime._DI4Y.
  intros Hn. cbn zeta.
  set (n400 := (n - 1) / 146097). set (r400 := (n - 1) mod 146097).
  set (n100 := r400 / 36524). set (r100 := r400 mod 36524).
  set (n4 := r100 / 1461). set (r4 := r100 mod 1461).
  set (n1 := r4 / 365). set (r1 := r4 mod 365).
  assert (H400 : n - 1 = 146097 * n400 + r400 /\ 0 <= r400 < 146097)
    by (subst n400 r400; split; [apply Z.div_mod; lia | apply Z.mod_pos_bound; lia]).
  assert (H100 : r400 = 36524 * n100 + r100 /\ 0 <= r100 < 36524)
    by (subst n100 r100; split; [apply Z.div_mod; lia | apply Z.mod_pos_bound; lia]).
  assert (H4 : r100 = 1461 * n4 + r4 /\ 0 <= r4 < 1461)
    by (subst n4 r4; split; [apply Z.div_mod; lia | apply Z.mod_pos_bound; lia]).
  assert (H1 : r4 = 365 * n1 + r1 /\ 0 <= r1 < 365)
    by (subst n1 r1; split; [apply Z.div_mod; lia | apply Z.mod_pos_bound; lia]).
  clearbody n400 r400 n100 r100 n4 r4 n1 r1.
  assert (Hb : 0 <= n400 <= 24 /\ 0 <= n100 <= 4 /\ 0 <= n4 <= 24 /\ 0 <= n1 <= 4) by lia.
  set (year := n400 * 400 + 1 + n100 * 100 + n4 * 4 + n1).
  assert (Hdby : forall y, y = n400 * 400 + n100 * 100 + n4 * 4 + n1 + 1 ->
            n1 <= 3 -> n100 <= 3 ->
            Datetime._days_before_year y
            = 146097 * n400 + 36524 * n100 + 1461 * n4 + 365 * n1).
  { intros y -> ? ?. unfold Datetime._days_before_year. cbn zeta.
    Z.to_euclidean_division_equations. lia. }
  assert (Hleap : forall y, y = n400 * 400 + n100 * 100 + n4 * 4 + n1 + 1 ->
            n1 <= 3 -> n100 <= 3 ->
            Datetime._is_leap y = (n1 =? 3) && (negb (n4 =? 24) || (n100 =? 3))).
  { intros y -> ? ?. unfold Datetime._is_leap.
    destruct (Z.eqb_spec n1 3), (Z.eqb_spec n4 24), (Z.eqb_spec n100 3);
      cbn [andb orb negb];
      repeat match goal with
             | |- context [?a mod ?b =? 0] => destruct (Z.eqb_spec (a mod b) 0)
             end;
      cbn [andb orb negb]; try reflexivity; exfalso;
      Z.to_euclidean_division_equations; lia. }
  unfold Datetime._ymd2ord, Datetime._days_before_month.
  destruct ((n1 =? 4) || (n100 =? 4)) eqn:Hlast.
  - apply orb_true_iff in Hlast. rewrite !Z.eqb_eq in Hlast.
    assert (Hr1 : r1 = 0) by lia.
    assert (Hl : Datetime._is_leap (year - 1) = true).
    { unfold Datetime._is_leap, year.
      repeat match goal with
             | |- context [?a mod ?b =? 0] => destruct (Z.eqb_spec (a mod b) 0)
             end;
        cbn [andb orb negb]; try reflexivity; exfalso;
        Z.to_euclidean_division_equations; lia. }
    rewrite Hl. eval_month_tables. unfold Datetime._days_before_year, year. cbn zeta.
    Z.to_euclidean_division_equations. lia.
  - apply orb_false_iff in Hlast. rewrite !Z.eqb_neq in Hlast.
    assert (Hy : year = n400 * 400 + n100 * 100 + n4 * 4 + n1 + 1) by (unfold year; lia).
    assert (Hn1 : n1 <= 3) by lia. assert (Hn100 : n100 <= 3) by lia.
    pose proof (Hdby year Hy Hn1 Hn100) as Hdays.
    pose proof (Hleap year Hy Hn1 Hn100) as Hl.
    clearbody year.
    rewrite Z.shiftr_div_pow2 by lia. change (2 ^ 5) with 32.
    set (month := (r1 + 50) / 32).
    assert (Hm : r1 + 50 = 32 * month + (r1 + 50) mod 32 /\ 0 <= (r1 + 50) mod 32 < 32)
      by (subst month; split; [apply Z.div_mod; lia | apply Z.mod_pos_bound; lia]).
    clearbody month. set (k := (r1 + 50) mod 32) in Hm. clearbody k.
    assert (Hcase : month = 1 \/ month = 2 \/ month = 3 \/ month = 4 \/ month = 5
                    \/ month = 6 \/ month = 7 \/ month = 8 \/ month = 9 \/ month = 10
                    \/ month = 11 \/ month = 12) by lia.
    destruct ((n1 =? 3) && (negb (n4 =? 24) || (n100 =? 3)));
      destruct Hcase as [->|[->|[->|[->|[->|[->|[->|[->|[->|[->|[->| ->]]]]]]]]]]];
      eval_month_tables;
      match goal with |- context [?a <? ?b] => destruct (Z.ltb_spec a b) end;
      cbv beta iota zeta; rewrite Hl, Hdays; eval_month_tables; lia.
Qed.

(** The datetime of [fromtimestamp_utc] is the instant of its argument. *)
Lemma fromtimestamp_instant (secs : Z) (dt : Datetime.t) :
  Datetime.fromtimestamp_utc secs = Some dt -> Datetime.epoch_seconds dt = secs.
Proof.
  unfold Datetime.fromtimestamp_utc. cbn zeta.
  destruct ((1 <=? secs / 86400 + 719163)
            && (secs / 86400 + 719163 <=? Datetime._MAXORDINAL)) eqn:Hrange; [|done].
  apply andb_true_iff in Hrange as [Hlo Hhi].
  apply Z.leb_le in Hlo, Hhi.
  pose proof (ord2ymd_inverse (secs / 86400 + 719163) (conj Hlo Hhi)) as Hymd.
  destruct (Datetime._ord2ymd (secs / 86400 + 719163)) as [[y m] d].
  intros [= <-]. unfold Datetime.epoch_seconds. cbn. rewrite Hymd.
  Z.to_euclidean_division_equations. lia.
Qed.

Lemma fromtimestamp_valid (secs : Z) (dt : Datetime.t) :
  Datetime.fromtimestamp_utc secs = Some dt -> valid_datetime dt.
Proof.
  unfold Datetime.fromtimestamp_utc. cbn zeta.
  destruct ((1 <=? secs / 86400 + 719163)
            && (secs / 86400 + 719163 <=? Datetime._MAXORDINAL)) eqn:Hrange; [|done].
  apply andb_true_iff in Hrange as [Hlo Hhi].
  apply Z.leb_le in Hlo, Hhi.
  pose proof (ord2ymd_valid (secs / 86400 + 719163) (conj Hlo Hhi)) as Hymd.
  destruct (Datetime._ord2ymd (secs / 86400 + 719163)) as [[y m] d].
  intros [= <-]. unfold valid_datetime. cbn.
  pose proof (Z.mod_pos_bound secs 86400 eq_refl) as Hrem.
  set (rem := secs mod 86400) in *. clearbody rem.
  pose proof (Z.mod_pos_bound rem 3600 eq_refl).
  pose proof (Z.mod_pos_bound rem 60 eq_refl).
  split_and!; try lia.
  - apply Z.div_pos; lia.
  - apply Z.lt_succ_r, Z.div_lt_upper_bound; lia.
  - apply Z.div_pos; lia.
  - apply Z.lt_succ_r, Z.div_lt_upper_bound; lia.
Qed.

Lemma digit_cases (d : Z) :
  0 <= d <= 9 ->
  Datetime.is_digit (Datetime.digit d) = true /\ digit_value (Datetime.digit d) = d.
Proof.
  intros Hd.
  assert (Hcase : d = 0 \/ d = 1 \/ d = 2 \/ d = 3 \/ d = 4 \/ d = 5 \/ d = 6
                  \/ d = 7 \/ d = 8 \/ d = 9) by lia.
  destruct Hcase as [->|[->|[->|[->|[->|[->|[->|[->|[->| ->]]]]]]]]]; by vm_compute.
Qed.

Lemma digit_mod (x : Z) :
  Datetime.is_digit (Datetime.digit (x mod 10)) = true
  /\ digit_value (Datetime.digit (x mod 10)) = x mod 10.
Proof. apply digit_cases. pose proof (Z.mod_pos_bound x 10 eq_refl). lia. Qed.

(** From the year 1000 on the year is written on four digits. *)
Lemma year_digits_four (n : Z) : 1000 <= n -> Datetime.year_digits n = Datetime.pad4 n.
Proof.
  intros Hn. unfold Datetime.year_digits.
  by rewrite !(proj2 (Z.ltb_ge _ _)) by lia.
Qed.

(** The text of [strftime] has the layout, whatever the other fields. *)
Lemma strftime_shape (dt : Datetime.t) :
  1000 <= Datetime.year dt ->
  Datetime.has_shape "dddd-dd-dd dd:dd:dd UTC" (Datetime.strftime dt) = true.
Proof.
  destruct dt as [y m d hh mm ss]. cbn [Datetime.year]. intros Hy.
  unfold Datetime.strftime. cbn [Datetime.year]. rewrite (year_digits_four y Hy).
  cbv [Datetime.pad4 Datetime.pad2 String.append Datetime.year
       Datetime.month Datetime.day Datetime.hour Datetime.minute Datetime.second].
  cbn [Datetime.has_shape Ascii.eqb Bool.eqb].
  rewrite !(proj1 (digit_mod _)). reflexivity.
Qed.

(** The text of [strftime] reads back to the fields. *)
Lemma strftime_reads_back (dt : Datetime.t) :
  valid_datetime dt -> 1000 <= Datetime.year dt -> read_fields (Datetime.strftime dt) = dt.
Proof.
  destruct dt as [y m d hh mm ss]. unfold valid_datetime. cbn.
  intros (Hy & Hm & Hd & Hhh & Hmm & Hss) Hfour.
  unfold Datetime.strftime. cbn [Datetime.year]. rewrite (year_digits_four y Hfour).
  cbv [Datetime.pad4 Datetime.pad2 String.append Datetime.year
       Datetime.month Datetime.day Datetime.hour Datetime.minute Datetime.second
       read_fields String.substring number].
  rewrite !(proj2 (digit_mod _)).
  f_equal; Z.to_euclidean_division_equations; lia.
Qed.

(** C4, amended.  The timestamp column of an item is: the marker
    ["Unknown"] when the message has no timestamp or an empty one; the
    text of the instant of the timestamp, a date and time of the
    calendar at that very number of seconds from the epoch, when the
    timestamp converts to an instant of the years 1 to 9999, and this
    text has the layout [YYYY-MM-DD HH:MM:SS UTC] and reads back to the
    date and time (stated from the year 1000 on, where the year has four
    digits of its own); and the timestamp string itself, unchanged, when
    it does not convert. *)
Theorem timestamp_column (slack : slack_client) (float_seconds : string -> option Z)
    (channel_id channel_name : string) (message : Message.t) (message_id : string)
    (trigger_emojis : list string) :
  let field :=
    Item.timestamp
      (new_item slack float_seconds channel_id channel_name message message_id
         trigger_emojis) in
  (default "" (Message.ts message) = "" -> field = "Unknown")
  /\ (forall timestamp secs dt,
        Message.ts message = Some timestamp -> timestamp ≠ "" ->
        float_seconds timestamp = Some secs ->
        Datetime.fromtimestamp_utc secs = Some dt ->
        field = Datetime.strftime dt
        /\ valid_datetime dt
        /\ Datetime.epoch_seconds dt = secs
        /\ (1000 <= Datetime.year dt ->
            Datetime.has_shape "dddd-dd-dd dd:dd:dd UTC" field = true
            /\ read_fields field = dt))
  /\ (forall timestamp,
        Message.ts message = Some timestamp -> timestamp ≠ "" ->
        float_seconds timestamp ≫= Datetime.fromtimestamp_utc = None ->
        field = timestamp).
Proof.
  intros field. subst field. rewrite item_timestamp. unfold format_timestamp.
  split_and!.
  - intros ->. reflexivity.
  - intros timestamp secs dt -> Hne Hsecs Hdt. cbn [default from_option]. unfold id.
    destruct timestamp as [|c rest]; [done|]. cbn [PyStr.truthy].
    rewrite Hsecs. cbn [mbind option_bind]. rewrite Hdt.
    pose proof (fromtimestamp_valid _ _ Hdt) as Hvalid.
    split_and!; [done|done|by apply fromtimestamp_instant|]. intros Hfour. split.
    + by apply strftime_shape.
    + by apply strftime_reads_back.
  - intros timestamp -> Hne Hnone. cbn [default from_option]. unfold id.
    destruct timestamp as [|c rest]; [done|]. cbn [PyStr.truthy].
    by rewrite Hnone.
Qed.

(** ** The seen-set store *)

Lemma hashable_strings_fmap (l : list string) :
  hashable_strings (JStr <$> l) = inr l.
Proof. induction l as [|x l IH]; [done|]. cbn. by rewrite IH. Qed.

(** [set(v)] raises nothing but [TypeError]. *)
Lemma hashable_strings_error (items : list json) (e : exn) :
  hashable_strings items = inl e -> e = TypeError.
Proof.
  induction items as [|item rest IH]; [done|]. cbn.
  destruct item, (hashable_strings rest); naive_solver.
Qed.

Lemma py_set_error (v : json) (e : exn) : py_set v = inl e -> e = TypeError.
Proof.
  destruct v as [|b|n|s|items|members]; cbn; try naive_solver.
  destruct (hashable_strings items) eqn:Hh; [|done].
  intros [= <-]. by apply hashable_strings_error in Hh.
Qed.

Section Store.

Context {S : Type}.

Abbreviation load := (_load_state (S:=S)).
Abbreviation save := (_save_state (S:=S)).
Abbreviation init := (__init__ (S:=S)).

(** [_load_state] on each kind of file. *)
Lemma load_state_cases (w : world S) :
  load w
  = match state_file w with
    | Missing => (inr tt, w)
    | Unreadable | Garbled => (inr tt, set_processed_messages ∅ w)
    | Document (JObj members) =>
        match py_set (default (JArr []) (member_lookup "processed_messages" members)) with
        | inr loaded => (inr tt, set_processed_messages loaded w)
        | inl _ => (inr tt, set_processed_messages ∅ w)
        end
    | Document _ => (inr tt, set_processed_messages ∅ w)
    end.
Proof.
  unfold _load_state, try_except, bind, os_path_exists, gets, json_load, lift, modify, raise.
  destruct w as [pm f ft s rq]. cbn [state_file].
  destruct f as [| | |doc]; try reflexivity.
  destruct doc as [|b|n|str|items|members]; try reflexivity.
  cbn. destruct (py_set _) as [e|loaded] eqn:Hset; [|done].
  by rewrite (py_set_error _ _ Hset).
Qed.

(** C6.  Loading the state never raises.  With no state file the monitor
    starts with an empty seen set; with a state file that cannot be
    read, or is not JSON, or is JSON of another kind than an object, or
    whose list cannot be made a set, the seen set is emptied. *)
Theorem load_state_never_raises (w : world S) :
  (exists w', load w = (inr tt, w'))
  /\ (exists w', init w = (inr tt, w'))
  /\ (state_file w = Missing ->
      load w = (inr tt, w) /\ init w = (inr tt, set_processed_messages ∅ w))
  /\ (state_file w = Unreadable \/ state_file w = Garbled
      \/ (exists doc, state_file w = Document doc /\ forall members, doc ≠ JObj members)
      \/ (exists members e, state_file w = Document (JObj members)
            /\ py_set (default (JArr []) (member_lookup "processed_messages" members))
               = inl e) ->
      load w = (inr tt, set_processed_messages ∅ w)
      /\ init w = (inr tt, set_processed_messages ∅ w)).
Proof.
  assert (Hinit : forall w0 : world S, init w0 = load (set_processed_messages ∅ w0)).
  { intros w0. reflexivity. }
  assert (Hload : forall w0 : world S, exists w', load w0 = (inr tt, w')).
  { intros w0. rewrite load_state_cases.
    destruct (state_file w0) as [| | |[|b|n|s|items|members]]; try by eexists.
    destruct (py_set _); by eexists. }
  split_and!.
  - apply Hload.
  - rewrite Hinit. apply Hload.
  - intros Hf. rewrite Hinit, !load_state_cases. cbn. by rewrite Hf.
  - intros Hf. rewrite Hinit, !load_state_cases. cbn.
    destruct Hf as [-> | [-> | [(doc & -> & Hdoc) | (members & e & -> & ->)]]];
      try done.
    destruct doc as [|b|n|s|items|members]; try done. by destruct (Hdoc members).
Qed.

(** What a restart loads from the document that [_save_state] wrote. *)
Lemma load_saved (pm : gset string) (now : string) (w : world S) :
  state_file w = Document (state_document pm now) ->
  init w = (inr tt, set_processed_messages pm w).
Proof.
  intros Hf. change (init w) with (load (set_processed_messages ∅ w)).
  rewrite load_state_cases. cbn [state_file set_processed_messages]. rewrite Hf.
  unfold state_document.
  change (member_lookup "processed_messages" _)
    with (Some (JArr (JStr <$> elements pm))).
  cbn [default from_option]. unfold id. cbn [py_set].
  rewrite hashable_strings_fmap, list_to_set_elements_L.
  reflexivity.
Qed.

(** C5, amended.  [_save_state] writes the whole seen set and the given
    time to the state file in place: the open cuts the file to nothing
    and the dump then writes the document.  When it completes, the file
    is the complete new state, and a restart loads exactly the seen set
    from it.  The write is not atomic: when the process is interrupted
    after the open, the file is left cut or partly written, which is
    neither the old nor the new state, the interruption is not caught,
    and a restart loads an empty seen set. *)
Theorem save_state_in_place (now : string) (w : world S) :
  (write_fault w = NoFault ->
   let w' := set_state_file (Document (state_document (processed_messages w) now)) w in
   save now w = (inr tt, w')
   /\ init w' = (inr tt, w'))
  /\ (write_fault w = Interrupted ->
      let w' := set_state_file Garbled w in
      save now w = (inl KeyboardInterrupt, w')
      /\ init w' = (inr tt, set_processed_messages ∅ w')).
Proof.
  split; intros Hf w'; rewrite save_state_cases, Hf; (split; [done|]).
  - rewrite (load_saved (processed_messages w) now w') by done. by destruct w.
  - change (init w') with (load (set_processed_messages ∅ w')).
    by rewrite load_state_cases.
Qed.

End Store.

(** ** The sheet writer *)

Section Sheet.

Context {S : Type} (service : sheets_service S).

Abbreviation append_rows := (append_to_sheet service).

(** C8, amended.  With no item, [append_to_sheet] returns true and leaves
    the world as it is: no request is executed.  With items, every item
    becomes a row of the eight columns in the order of the header; the
    first row is read and, when it is empty, the header row is appended;
    then all the rows go in one append.  The result is false when that
    append fails, and when reading the first row or appending the header
    fails otherwise than with [HttpError], in which case the rows are
    not sent; it is true otherwise: an [HttpError] of reading the first
    row or of appending the header is swallowed. *)
Theorem append_to_sheet_outcomes (w : world S) :
  append_rows [] w = (inr true, w)
  /\ (forall item,
        row_of item
        = [ Item.timestamp item; Item.user item; Item.channel item;
            Item.reacted_message_text item; Item.parent_message item;
            Item.thread_replies item; Item.link item; Item.trigger_emojis item ]
        /\ length (row_of item) = length headers)
  /\ (forall item data,
        append_rows (item :: data) w
        = let rows := row_of <$> item :: data in
          match values_get service SPREADSHEET_ID "Sheet2!A1:H1" (sheet w) with
          | (inl Transport, s1) => (inr false, set_sheet s1 first_row_request w)
          | (inl Http, s1) | (inr (_ :: _), s1) =>
              batched_append service rows (set_sheet s1 first_row_request w)
          | (inr [], s1) =>
              let w1 := set_sheet s1 first_row_request w in
              match values_append service SPREADSHEET_ID "Sheet2!A1" [headers] s1 with
              | (inl Transport, s2) => (inr false, set_sheet s2 header_request w1)
              | (_, s2) => batched_append service rows (set_sheet s2 header_request w1)
              end
          end).
Proof.
  split_and!; [done|done|]. intros item data. apply append_to_sheet_cases.
Qed.

(** C9.  When reading the first row fails with [HttpError], the rows are
    appended all the same, right after the failed read, and the result is
    the verdict of that append alone. *)
Theorem header_check_failure_is_swallowed (item : Item.t) (data : list Item.t)
    (w : world S) (s1 s2 : S) (answer : failure + Z) :
  values_get service SPREADSHEET_ID "Sheet2!A1:H1" (sheet w) = (inl Http, s1) ->
  values_append service SPREADSHEET_ID "Sheet2!A:H" (row_of <$> item :: data) s1
  = (answer, s2) ->
  append_rows (item :: data) w
  = (inr (if answer is inr _ then true else false),
     World (processed_messages w) (state_file w) (write_fault w) s2
       (requests w ++ [first_row_request; rows_request (row_of <$> item :: data)])).
Proof.
  intros Hget Happend. rewrite append_to_sheet_cases, Hget. cbn zeta.
  unfold batched_append. cbn [sheet set_sheet]. rewrite Happend.
  unfold set_sheet. cbn [processed_messages state_file write_fault requests].
  by rewrite <- app_assoc.
Qed.

End Sheet.

(** * Examples *)

(** ** The library functions, against Python's own results *)

Example md5_empty : MD5.hexdigest "" = "d41d8cd98f00b204e9800998ecf8427e".
Proof. vm_compute. reflexivity. Qed.

Example md5_abc : MD5.hexdigest "abc" = "900150983cd24fb0d6963f7d28e17f72".
Proof. vm_compute. reflexivity. Qed.

Example md5_two_blocks :
  MD5.hexdigest "aaaaaaaaaaaaaaaaaaaaaaaaaaaaaaaaaaaaaaaaaaaaaaaaaaaaaaaaaaaaaaaaaaaaaa"
  = "0f5c6c4e740bfcc08c3c26ccb2673d46".
Proof. vm_compute. reflexivity. Qed.

Example md5_utf8 : MD5.hexdigest "é-x" = "0a9941ab34e1a959ba8291f40cf127fe".
Proof. vm_compute. reflexivity. Qed.

Example strftime_2023 :
  Datetime.strftime <$> Datetime.fromtimestamp_utc 1700000000
  = Some "2023-11-14 22:13:20 UTC".
Proof. reflexivity. Qed.

Example strftime_leap_day :
  Datetime.strftime <$> Datetime.fromtimestamp_utc 1709251199
  = Some "2024-02-29 23:59:59 UTC".
Proof. reflexivity. Qed.

Example strftime_before_epoch :
  Datetime.strftime <$> Datetime.fromtimestamp_utc (-1)
  = Some "1969-12-31 23:59:59 UTC".
Proof. reflexivity. Qed.

Example strftime_first_second :
  Datetime.strftime <$> Datetime.fromtimestamp_utc (-62135596800)
  = Some "1-01-01 00:00:00 UTC".
Proof. reflexivity. Qed.

Example strftime_year_385 :
  Datetime.strftime <$> Datetime.fromtimestamp_utc (-50000000000)
  = Some "385-07-25 07:06:40 UTC".
Proof. reflexivity. Qed.

Example strftime_year_1000 :
  Datetime.strftime <$> Datetime.fromtimestamp_utc (-30610224001)
  = Some "999-12-31 23:59:59 UTC"
  /\ Datetime.strftime <$> Datetime.fromtimestamp_utc (-30610224000)
     = Some "1000-01-01 00:00:00 UTC".
Proof. split; reflexivity. Qed.

Example strftime_last_second :
  Datetime.strftime <$> Datetime.fromtimestamp_utc 253402300799
  = Some "9999-12-31 23:59:59 UTC".
Proof. reflexivity. Qed.

Example fromtimestamp_out_of_range :
  Datetime.fromtimestamp_utc 253402300800 = None
  /\ Datetime.fromtimestamp_utc (-62135596801) = None.
Proof. split; reflexivity. Qed.

(** ** The scenario of the specification

    The monitor run on the services of [Demo]. *)

Example fingerprint_B :
  _get_message_id Demo.message_B = "ec64e99096c766c6ecd669441686348b".
Proof. vm_compute. reflexivity. Qed.

Example fetch_scenario :
  (demo_fetch (Demo.fresh demo_seen Demo.empty_store NoFault)).1 = inr [item_B].
Proof. vm_compute. reflexivity. Qed.

(** Reading off the outcome of a run. *)
Lemma outcome_eq {A B : Type} (p : A * B) (a : A) : p.1 = a -> p = (a, p.2).
Proof. destruct p. by intros <-. Qed.

Ltac by_running := vm_compute; reflexivity.
Ltac member_by_running :=
  match goal with |- ?P => apply (@bool_decide_unpack P _) end; vm_compute; exact I.

Example cycle_scenario :
  let w := (demo_cycle (Demo.fresh demo_seen Demo.empty_store NoFault)).2 in
  (demo_cycle (Demo.fresh demo_seen Demo.empty_store NoFault)).1 = inr 1
  /\ Demo.rows (sheet w) = [headers; row_of item_B]
  /\ _get_message_id Demo.message_B ∈ processed_messages w
  /\ _get_message_id Demo.message_C ∈ processed_messages w
  /\ (demo_cycle w).1 = inr 0
  /\ Demo.rows (sheet (demo_cycle w).2) = [headers; row_of item_B].
Proof.
  cbv zeta.
  split_and!; [by_running | by_running | member_by_running | member_by_running
              | by_running | by_running].
Qed.

(** *** A sheet that refuses the appends *)

(** C1, as stated, fails: the append returns false and the cycle returns
    0, yet the fingerprint of the accepted message B, which was not in
    the seen set before, is in it afterwards, and the next fetch of the
    same monitor does not yield B again. *)
Lemma failed_append_leaves_items_marked :
  (demo_fetch refused).1 = inr [item_B]
  /\ (append_to_sheet Demo.service [item_B] (demo_fetch refused).2).1 = inr false
  /\ (demo_cycle refused).1 = inr 0
  /\ (_get_message_id Demo.message_B ∉ processed_messages refused)
  /\ _get_message_id Demo.message_B ∈ processed_messages (demo_cycle refused).2
  /\ (demo_fetch (demo_cycle refused).2).1 = inr [].
Proof.
  split_and!; [by_running | by_running | by_running | member_by_running
              | member_by_running | by_running].
Qed.

Lemma failed_append_witness :
  let w1 := (demo_fetch refused).2 in
  let w2 := (append_to_sheet Demo.service [item_B] w1).2 in
  demo_cycle refused = (inr 0, w2)
  /\ state_file w2 = state_file refused
  /\ (forall item, item ∈ [item_B] -> Item.id item ∈ processed_messages w2)
  /\ demo_fetch w2 = (inr [], w2).
Proof.
  cbv zeta. unfold demo_cycle, demo_fetch.
  apply (failed_append_marks_in_memory_only demo_slack Demo.service Demo.float_seconds
           demo_now refused
           (fetch_new_triggered_messages demo_slack Demo.float_seconds
              DEFAULT_CHANNEL_ID refused).2);
    apply outcome_eq; by_running.
Defined.

(** C2, as stated, fails: the message B carries a trigger emoji and was
    not seen, the sheet refuses the append of the first cycle, and the
    second cycle does not send B again: after the two cycles the sheet
    has taken no row, so that B is emitted not once but never. *)
Lemma refused_item_is_never_emitted :
  (demo_fetch refused).1 = inr [item_B]
  /\ (demo_cycle refused).1 = inr 0
  /\ (demo_cycle (demo_cycle refused).2).1 = inr 0
  /\ Demo.rows (sheet (demo_cycle (demo_cycle refused).2).2) = []
  /\ delivered Demo.service (requests (demo_cycle (demo_cycle refused).2).2)
       (sheet refused) = [].
Proof. split_and!; by_running. Qed.

(** On a sheet that answers, the two cycles deliver the row of B
    once. *)
Example two_cycles_deliver_once :
  let w := Demo.fresh demo_seen Demo.empty_store NoFault in
  requests (demo_cycle (demo_cycle w).2).2
  = [first_row_request; header_request; rows_request [row_of item_B]]
  /\ all_answered Demo.service (requests (demo_cycle (demo_cycle w).2).2) (sheet w) = true
  /\ delivered Demo.service (requests (demo_cycle (demo_cycle w).2).2) (sheet w)
     = [row_of item_B]
  /\ Demo.rows (store_after Demo.service (requests (demo_cycle (demo_cycle w).2).2)
                  (sheet w))
     = [headers; row_of item_B].
Proof. cbv zeta. split_and!; by_running. Qed.

(** *** A state file that cannot be written *)

Lemma save_failure_witness :
  let w1 := (demo_fetch unwritable).2 in
  let w2 := (append_to_sheet Demo.service [item_B] w1).2 in
  exists w3,
    _save_state demo_now w2 = (inr tt, w3)
    /\ demo_cycle unwritable = (inr (Z.of_nat (length [item_B])), w3)
    /\ processed_messages w3 = processed_messages w2
    /\ (forall item, item ∈ [item_B] -> Item.id item ∈ processed_messages w3)
    /\ state_file w3 = Garbled.
Proof.
  cbv zeta. unfold demo_cycle, demo_fetch.
  apply (save_failure_does_not_propagate demo_slack Demo.service Demo.float_seconds
           demo_now unwritable
           (fetch_new_triggered_messages demo_slack Demo.float_seconds
              DEFAULT_CHANNEL_ID unwritable).2).
  - right. reflexivity.
  - apply outcome_eq. by_running.
  - discriminate.
  - apply outcome_eq. by_running.
Defined.

(** *** Two messages with one fingerprint *)

Example fifty_characters : char_count fifty = 50%nat /\ String.length fifty = 51%nat.
Proof. split; reflexivity. Qed.

Lemma fingerprint_witness :
  _get_message_id message_D = _get_message_id message_D'.
Proof. apply fingerprint_ignores_reactions; by_running. Defined.

(** *** A timestamp that is no number *)

(** C4, as stated, fails: the timestamp of E is present and [float]
    rejects it; the column is that string, not ["Unknown"]. *)
Lemma unparsable_timestamp_is_kept :
  Demo.float_seconds "not-a-number" = None
  /\ Item.timestamp <$>
       (fetched (Demo.slack [message_E]) Demo.float_seconds DEFAULT_CHANNEL_ID ∅)
     = ["not-a-number"].
Proof. split; by_running. Qed.

Example timestamp_columns :
  format_timestamp Demo.float_seconds Demo.message_B = "2023-11-14 22:15:00 UTC"
  /\ format_timestamp Demo.float_seconds (Message.mk None None None [] None) = "Unknown"
  /\ format_timestamp Demo.float_seconds (Message.mk (Some "") None None [] None) = "Unknown".
Proof. split_and!; by_running. Qed.

(** *** An interruption while the state is written *)

(** C5, as stated, fails: the cycle appends the row of B, is interrupted
    while it writes the state, and leaves a state file that is neither
    the old document nor the new one; the restart then starts from an
    empty seen set. *)
Lemma interrupted_save_leaves_partial_file :
  state_file interrupted = Document old_document
  /\ (demo_cycle interrupted).1 = inl KeyboardInterrupt
  /\ Demo.rows (sheet (demo_cycle interrupted).2) = [headers; row_of item_B]
  /\ state_file (demo_cycle interrupted).2 = Garbled
  /\ Garbled ≠ Document old_document
  /\ Garbled
     ≠ Document (state_document (processed_messages (demo_cycle interrupted).2) demo_now)
  /\ _get_message_id Demo.message_C
     ∉ processed_messages (__init__ (demo_cycle interrupted).2).2.
Proof.
  split_and!; [reflexivity | by_running | by_running | by_running | discriminate
              | discriminate | member_by_running].
Qed.

(** *** A sheet whose first row cannot be read *)

(** C8, as stated, fails: the read of the first row fails at the store,
    and [append_to_sheet] returns true. *)
Lemma failed_read_still_true :
  values_get Demo.service SPREADSHEET_ID "Sheet2!A1:H1" (sheet unreadable)
  = (inl Http, unreadable_store)
  /\ (append_to_sheet Demo.service [item_B] unreadable).1 = inr true
  /\ requests (append_to_sheet Demo.service [item_B] unreadable).2
     = [first_row_request; rows_request [row_of item_B]]
  /\ Demo.rows (sheet (append_to_sheet Demo.service [item_B] unreadable).2)
     = [headers; row_of item_B].
Proof. split_and!; by_running. Qed.

Lemma header_check_witness :
  append_to_sheet Demo.service [item_B] unreadable
  = (inr true,
     World ∅ Missing NoFault
       (Demo.Store [headers; row_of item_B] (Some Http) None)
       [first_row_request; rows_request [row_of item_B]]).
Proof.
  apply (header_check_failure_is_swallowed Demo.service item_B [] unreadable
           unreadable_store (Demo.Store [headers; row_of item_B] (Some Http) None)
           (inr 8)); reflexivity.
Defined.

(** *** Restarts *)

Example restart_after_cycle :
  let w := (demo_cycle (Demo.fresh demo_seen Demo.empty_store NoFault)).2 in
  state_file w
  = Document (state_document (processed_messages w) demo_now)
  /\ (__init__ w).1 = inr tt
  /\ _get_message_id Demo.message_B ∈ processed_messages (__init__ w).2
  /\ _get_message_id Demo.message_C ∈ processed_messages (__init__ w).2
  /\ (demo_cycle (__init__ w).2).1 = inr 0.
Proof.
  cbv zeta.
  split_and!; [by_running | by_running | member_by_running | member_by_running
              | by_running].
Qed.

Example restart_without_file :
  (__init__ (Demo.fresh demo_seen Demo.empty_store NoFault)).1 = inr tt
  /\ processed_messages (__init__ (Demo.fresh demo_seen Demo.empty_store NoFault)).2 = ∅.
Proof. split; reflexivity. Qed.

Example load_state_examples :
  let load doc :=
    elements (processed_messages
                (_load_state (World demo_seen (Document doc) NoFault Demo.empty_store [])).2) in
  load (JObj [("processed_messages", JArr [JStr "a1"; JNum 7; JStr "a1"])]) = ["a1"]
  /\ load (JObj [("last_check_time", JStr "never")]) = []
  /\ load (JObj [("processed_messages", JArr [JStr "a1"; JArr []])]) = []
  /\ load (JObj [("processed_messages", JNum 3)]) = []
  /\ load (JArr [JStr "a1"]) = []
  /\ load (JObj [("processed_messages", JArr [JStr "old"]);
                 ("processed_messages", JArr [JStr "new"])]) = ["new"].
Proof. cbv zeta. split_and!; by_running. Qed.


(** * Further properties *)

(** ** What a fetch yields *)

Section Fetch_more.

Context (slack : slack_client) {S : Type} (service : sheets_service S).
Context (float_seconds : string -> option Z).

Lemma items_after_sublist (channel_id channel_name : string) (messages : list Message.t)
    (pm : gset string) :
  items_after slack float_seconds channel_id channel_name messages pm
  `sublist_of`
  (fun m => new_item slack float_seconds channel_id channel_name m
              (_get_message_id m) (matching m)) <$> messages.
Proof.
  revert pm. induction messages as [|m rest IH]; intros pm; cbn; [constructor|].
  destruct (accepted pm m).
  - apply sublist_skip, IH.
  - apply sublist_cons, IH.
Qed.


Lemma items_after_length (channel_id channel_name : string) (messages : list Message.t)
    (pm : gset string) :
  (length (items_after slack float_seconds channel_id channel_name messages pm)
   <= length messages)%nat.
Proof.
  etrans; [apply sublist_length, items_after_sublist|]. by rewrite length_fmap.
Qed.

(** The seen set after the loop holds nothing but what it held and the
    fingerprints of the messages. *)
Lemma seen_after_bound (messages : list Message.t) (pm : gset string) :
  seen_after messages pm ⊆ pm ∪ list_to_set (_get_message_id <$> messages).
Proof.
  revert pm. induction messages as [|m rest IH]; intros pm; cbn; [set_solver|].
  destruct (accepted pm m).
  - etrans; [apply IH|]. set_solver.
  - etrans; [apply IH|]. set_solver.
Qed.

(** The seen set that a cycle leaves. *)
Lemma cycle_processed (now : string) (w : world S) :
  processed_messages (run_monitor_cycle slack service float_seconds now w).2
  = seen_after (source slack DEFAULT_CHANNEL_ID) (processed_messages w).
Proof.
  rewrite cycle_cases. cbn zeta.
  destruct (fetched slack float_seconds DEFAULT_CHANNEL_ID (processed_messages w))
    as [|item items]; [done|].
  destruct (append_to_sheet service (item :: items) _) as [r w2] eqn:Happend.
  destruct (append_to_sheet_keeps service _ _ _ _ Happend) as ([b ->] & Hpm & _).
  cbn in Hpm. destruct b; [|done].
  destruct (save_state_keeps now w2) as (Hk & _).
  destruct (_save_state now w2) as [[e|[]] w3]; cbn in Hk |- *.
  - destruct (is_Exception e); cbn; by rewrite Hk.
  - by rewrite Hk.
Qed.


(** X2.  The items of a fetch come in the order of the history: they
    are the enrichments of some of its messages, none moved. *)
Theorem fetch_keeps_order (channel_id : string) (w : world S) :
  match (fetch_new_triggered_messages slack float_seconds channel_id w).1 with
  | inr items =>
      items `sublist_of` (enriched slack float_seconds channel_id <$> source slack channel_id)
      /\ (length items <= length (source slack channel_id))%nat
  | inl _ => False
  end.
Proof.
  rewrite fetch_spec. cbn. split; [apply items_after_sublist | apply items_after_length].
Qed.

(** X3.  When the history of the channel cannot be fetched, because the
    call raises or answers with ["ok"] false, the fetch yields nothing
    and the cycle returns 0; neither changes anything: no request, and
    the seen set and the state file as they were. *)
Theorem history_failure_changes_nothing (now : string) (w : world S) :
  conversations_history slack DEFAULT_CHANNEL_ID 100 = Raised
  \/ conversations_history slack DEFAULT_CHANNEL_ID 100 = NotOk ->
  fetch_new_triggered_messages slack float_seconds DEFAULT_CHANNEL_ID w = (inr [], w)
  /\ run_monitor_cycle slack service float_seconds now w = (inr 0, w).
Proof.
  intros Hh.
  assert (Hs : source slack DEFAULT_CHANNEL_ID = [])
    by (unfold source; by destruct Hh as [-> | ->]).
  split.
  - rewrite fetch_spec. unfold fetched. rewrite Hs. cbn. by destruct w.
  - rewrite cycle_cases. unfold fetched. rewrite Hs. cbn. by destruct w.
Qed.

(** X4.  A cycle never takes a fingerprint out of the seen set, and puts
    in nothing but fingerprints of messages of the history. *)
Theorem cycle_seen_set_bounds (now : string) (w : world S) :
  processed_messages w
  ⊆ processed_messages (run_monitor_cycle slack service float_seconds now w).2
  /\ processed_messages (run_monitor_cycle slack service float_seconds now w).2
     ⊆ processed_messages w
       ∪ list_to_set (_get_message_id <$> source slack DEFAULT_CHANNEL_ID).
Proof.
  rewrite cycle_processed. split; [apply seen_after_mono | apply seen_after_bound].
Qed.

End Fetch_more.


(** ** Lookups that fail *)

Lemma own_fields_new_item (slack : slack_client) (float_seconds : string -> option Z)
    (channel_id channel_name : string) (m : Message.t) (message_id : string)
    (trigger_emojis : list string) :
  own_fields (new_item slack float_seconds channel_id channel_name m message_id
                trigger_emojis)
  = (message_id, format_timestamp float_seconds m, default "" (Message.text m),
     PyStr.join ", " trigger_emojis).
Proof. unfold new_item. by destruct (thread_context slack channel_id m). Qed.

Lemma own_fields_items_after (slack1 slack2 : slack_client)
    (float_seconds : string -> option Z) (channel_id name1 name2 : string)
    (messages : list Message.t) (pm : gset string) :
  own_fields <$> items_after slack1 float_seconds channel_id name1 messages pm
  = own_fields <$> items_after slack2 float_seconds channel_id name2 messages pm.
Proof.
  revert pm. induction messages as [|m rest IH]; intros pm; cbn; [done|].
  destruct (accepted pm m); [|apply IH].
  rewrite !fmap_cons, !own_fields_new_item. f_equal. apply IH.
Qed.

(** X5.  Two Slack clients that give the same history yield, whatever
    their lookups of users, channels, permalinks and threads answer, as
    many items, with the same fingerprints, timestamps, texts and
    trigger emojis, in the same order, and leave the same world. *)
Theorem lookups_do_not_change_what_is_fetched (slack1 slack2 : slack_client) {S : Type}
    (float_seconds : string -> option Z) (channel_id : string) (w : world S) :
  conversations_history slack1 channel_id 100
  = conversations_history slack2 channel_id 100 ->
  exists items1 items2 w',
    fetch_new_triggered_messages slack1 float_seconds channel_id w = (inr items1, w')
    /\ fetch_new_triggered_messages slack2 float_seconds channel_id w = (inr items2, w')
    /\ own_fields <$> items1 = own_fields <$> items2
    /\ length items1 = length items2.
Proof.
  intros Hh. rewrite !fetch_spec.
  assert (Hs : source slack1 channel_id = source slack2 channel_id)
    by (unfold source; by rewrite Hh).
  eexists _, _, _. split_and!; [reflexivity| by rewrite Hs | |].
  - unfold fetched. rewrite Hs. apply own_fields_items_after.
  - rewrite <- (length_fmap own_fields), <- (length_fmap own_fields (fetched slack2 _ _ _)).
    unfold fetched. rewrite Hs. f_equal. apply own_fields_items_after.
Qed.

Lemma enriched_fallback (slack : slack_client) (float_seconds : string -> option Z)
    (channel_id : string) (m : Message.t) :
  lookups_fail slack ->
  enriched slack float_seconds channel_id m = fallback_item float_seconds channel_id m.
Proof.
  intros (Hu & Hc & Hp & Hr). unfold enriched, fallback_item, new_item.
  assert (Hthread : thread_context slack channel_id m = ("", [])).
  { unfold thread_context, get_thread_replies.
    destruct (Message.thread_ts m) as [t|]; [|done].
    destruct (PyStr.truthy t); [|done].
    by destruct (Hr channel_id t) as [-> | ->]. }
  rewrite Hthread. cbn [PyStr.join]. f_equal.
  - unfold get_user_name.
    by destruct (Hu (default "Unknown" (Message.user m))) as [-> | ->].
  - unfold get_channel_name. by destruct (Hc channel_id) as [-> | ->].
  - unfold get_permalink.
    by destruct (Hp channel_id (default "" (Message.ts m))) as [-> | ->].
Qed.

(** X6.  When no lookup answers, every item is still produced, with the
    author id in place of the user name (the marker ["Unknown"] when the
    message has no author), the channel id in place of the channel name,
    and an empty link, parent message and thread replies. *)
Theorem failed_lookups_degrade_to_ids (slack : slack_client) {S : Type}
    (float_seconds : string -> option Z) (channel_id : string) (w : world S) :
  lookups_fail slack ->
  exists items w',
    fetch_new_triggered_messages slack float_seconds channel_id w = (inr items, w')
    /\ items `sublist_of` (fallback_item float_seconds channel_id <$> source slack channel_id)
    /\ forall x, x ∈ Item.id <$> items
         <-> (x ∉ processed_messages w)
             /\ exists m, m ∈ source slack channel_id
                  /\ _get_message_id m = x /\ matching m ≠ [].
Proof.
  intros Hfail. rewrite fetch_spec. eexists _, _. split_and!; [reflexivity| |].
  - unfold fetched.
    assert (Hmap : fallback_item float_seconds channel_id <$> source slack channel_id
                   = enriched slack float_seconds channel_id <$> source slack channel_id).
    { apply list_fmap_ext. intros _ m _. symmetry. by apply enriched_fallback. }
    rewrite Hmap. apply items_after_sublist.
  - intros x. apply items_after_ids.
Qed.


(** ** What a cycle does to the state file and the sheet *)

Section Cycle_more.

Context (slack : slack_client) {S : Type} (service : sheets_service S).
Context (float_seconds : string -> option Z).

Abbreviation run := (run_monitor_cycle slack service float_seconds).
Abbreviation fetched_now w :=
  (fetched slack float_seconds DEFAULT_CHANNEL_ID (processed_messages w)).

(** One cycle, by its outcome. *)
Lemma cycle_summary (now : string) (w : world S) :
  let r := run now w in
  let rows := row_of <$> fetched_now w in
  exists sent,
    data_rows (requests r.2) = data_rows (requests w) ++ sent
    /\ write_fault r.2 = write_fault w
    /\ match r.1 with
       | inr n =>
           (n = 0 /\ (sent = [] \/ sent = rows) /\ state_file r.2 = state_file w)
           \/ (n ≠ 0 /\ n = Z.of_nat (length (fetched_now w)) /\ sent = rows
               /\ write_fault w ≠ Interrupted
               /\ state_file r.2
                  = saved_file now (set_processed_messages (processed_messages r.2) w))
       | inl e =>
           e = KeyboardInterrupt /\ write_fault w = Interrupted /\ sent = rows
           /\ state_file r.2 = Garbled
       end.
Proof.
  cbn zeta. rewrite cycle_cases. cbn zeta.
  destruct (fetched_now w) as [|item items] eqn:Hf.
  { exists []. cbn. rewrite app_nil_r. split; [done|split; [done|]]. left. split_and!; by eauto. }
  destruct (append_to_sheet service (item :: items) _) as [r w2] eqn:Happend.
  destruct (append_to_sheet_keeps service _ _ _ _ Happend) as ([b ->] & Hpm & Hsf & Hwf).
  destruct (append_to_sheet_rows service item items _ _ _ Happend)
    as (sent & Hrows & Hsent & Htrue).
  cbn in Hpm, Hsf, Hwf. cbn [requests set_processed_messages] in Hrows. destruct b.
  - specialize (Htrue eq_refl). rewrite save_state_cases, Hwf.
    exists sent. unfold saved_file. cbn [write_fault set_processed_messages].
    destruct (write_fault w) eqn:Hfault; cbn -[row_of fmap data_rows];
      (split; [done|split; [done|]]).
    + right. split_and!; [done|done|done|done|]. by rewrite Hpm.
    + right. split_and!; [done|done|done|done|]. by rewrite Hsf.
    + right. split_and!; done.
    + split_and!; done.
  - exists sent. cbn -[row_of fmap data_rows]. split; [done|split; [done|]]. left. by split_and!.
Qed.

(** X7.  A cycle returns a count between 0 and the number of messages of
    the history: 0, or the number of the new items; and it raises
    nothing that [except Exception] catches. *)
Theorem cycle_count_bounds (now : string) (w : world S) :
  match (run now w).1 with
  | inr n =>
      0 <= n <= Z.of_nat (length (source slack DEFAULT_CHANNEL_ID))
      /\ (n = 0 \/ n = Z.of_nat (length (fetched_now w)))
  | inl e => is_Exception e = false
  end.
Proof.
  destruct (cycle_summary now w) as (sent & _ & _ & Hr). cbn zeta in Hr.
  pose proof (items_after_length slack float_seconds DEFAULT_CHANNEL_ID
                (get_channel_name slack DEFAULT_CHANNEL_ID)
                (source slack DEFAULT_CHANNEL_ID) (processed_messages w)) as Hlen.
  fold (fetched_now w) in Hlen.
  destruct ((run now w).1) as [e|n].
  - by destruct Hr as (-> & _).
  - destruct Hr as [(-> & _)|(Hn & -> & _)]; split; [lia|by left|lia|by right].
Qed.

(** X8.  The state file is written exactly in the cycles that return
    another count than 0: a cycle that returns 0 leaves the file as it
    was, and a cycle that returns another count leaves the document of
    the whole in-memory seen set when the write succeeds, the old file
    when the open fails, and a cut file when the dump fails. *)
Theorem state_file_follows_the_count (now : string) (w : world S) :
  match (run now w).1 with
  | inr n =>
      if decide (n = 0) then state_file (run now w).2 = state_file w
      else state_file (run now w).2
           = match write_fault w with
             | NoFault =>
                 Document (state_document (processed_messages (run now w).2) now)
             | OpenFails => state_file w
             | DumpFails | Interrupted => Garbled
             end
  | inl _ => state_file (run now w).2 = Garbled
  end.
Proof.
  destruct (cycle_summary now w) as (sent & _ & _ & Hr). cbn zeta in Hr.
  destruct ((run now w).1) as [e|n].
  - by destruct Hr as (_ & _ & _ & ->).
  - destruct (decide (n = 0)) as [->|Hn].
    + by destruct Hr as [(_ & _ & ->)|(Hn & _)].
    + destruct Hr as [(-> & _)|(_ & _ & _ & _ & ->)]; [done|].
      unfold saved_file. cbn. by destruct (write_fault w).
Qed.

(** X9.  After a cycle that returned another count than 0 and wrote the
    state, a restart loads exactly the seen set that the monitor had,
    and the next cycle returns 0 and changes nothing. *)
Theorem restart_after_a_saved_cycle (now now' : string) (w : world S) (n : Z) :
  write_fault w = NoFault ->
  (run now w).1 = inr n -> n ≠ 0 ->
  __init__ (run now w).2 = (inr tt, (run now w).2)
  /\ run now' (run now w).2 = (inr 0, (run now w).2).
Proof.
  intros Hfault Hrun Hn.
  destruct (cycle_summary now w) as (sent & _ & _ & Hr). cbn zeta in Hr.
  rewrite Hrun in Hr. destruct Hr as [(-> & _)|(_ & _ & _ & _ & Hfile)]; [done|].
  unfold saved_file in Hfile. cbn in Hfile. rewrite Hfault in Hfile.
  pose proof (cycle_processed slack service float_seconds now w) as Hpm.
  set (w1 := (run now w).2) in *.
  split.
  - rewrite (load_saved (processed_messages w1) now w1 Hfile). by destruct w1.
  - rewrite cycle_cases. cbn zeta.
    destruct (fetch_again slack float_seconds DEFAULT_CHANNEL_ID w (processed_messages w1))
      as [-> ->]; [by rewrite Hpm|].
    by destruct w1.
Qed.

(** X10.  When the state file holds the seen set that the monitor
    starts a cycle with, and the cycle returns 0, whether for a failed
    append or for want of new items, a restart brings that seen set
    back, and the next fetch yields what the fetch of the failed cycle
    yielded: nothing is lost across a restart. *)
Theorem failed_cycle_is_retried_after_restart (now before : string) (w : world S) :
  state_file w = Document (state_document (processed_messages w) before) ->
  (run now w).1 = inr 0 ->
  processed_messages (__init__ (run now w).2).2 = processed_messages w
  /\ (fetch_new_triggered_messages slack float_seconds DEFAULT_CHANNEL_ID
        (__init__ (run now w).2).2).1
     = (fetch_new_triggered_messages slack float_seconds DEFAULT_CHANNEL_ID w).1.
Proof.
  intros Hfile Hrun.
  destruct (cycle_summary now w) as (sent & _ & _ & Hr). cbn zeta in Hr.
  rewrite Hrun in Hr. destruct Hr as [(_ & _ & Hsame)|(Hn & _)]; [|done].
  rewrite <- Hsame in Hfile.
  rewrite (load_saved _ _ _ Hfile). cbn. split; [done|].
  rewrite !fetch_spec. reflexivity.
Qed.

(** X11.  Every row that a cycle sends to the sheet has the eight cells
    of the header, and the rows are those of the fetched items, in their
    order, sent at once or not at all. *)
Theorem sent_rows_have_eight_cells (now : string) (w : world S) :
  exists sent,
    data_rows (requests (run now w).2) = data_rows (requests w) ++ sent
    /\ (sent = [] \/ sent = row_of <$> fetched_now w)
    /\ Forall (fun row => length row = length headers) sent.
Proof.
  destruct (cycle_summary now w) as (sent & Hrows & _ & Hr). cbn zeta in Hr.
  exists sent. split; [done|].
  assert (Hsent : sent = [] \/ sent = row_of <$> fetched_now w).
  { destruct ((run now w).1) as [e|n].
    - destruct Hr as (_ & _ & -> & _). by right.
    - destruct Hr as [(_ & Hs & _)|(_ & _ & -> & _)]; [done|by right]. }
  split; [done|]. destruct Hsent as [-> | ->]; [constructor|].
  apply Forall_fmap, Forall_forall. by intros item _.
Qed.

End Cycle_more.

Section Sheet_more.

Context {S : Type} (service : sheets_service S).

(** X12.  With items to append, the first request reads the first row;
    the header row is appended exactly when that read answers with no
    row; and no other request follows than that and the append of the
    rows. *)
Theorem header_only_on_empty_first_row (item : Item.t) (data : list Item.t)
    (w : world S) :
  exists new,
    requests (append_to_sheet service (item :: data) w).2
    = requests w ++ first_row_request :: new
    /\ (header_request ∈ new
        <-> (values_get service SPREADSHEET_ID "Sheet2!A1:H1" (sheet w)).1 = inr [])
    /\ (forall rq, rq ∈ new ->
          rq = header_request \/ rq = rows_request (row_of <$> item :: data)).
Proof.
  rewrite append_to_sheet_cases. unfold batched_append. cbn zeta.
  assert (Hne : forall rows, header_request ≠ rows_request rows) by (intros rows; discriminate).
  destruct (values_get service SPREADSHEET_ID "Sheet2!A1:H1" (sheet w))
    as [[[|]|[|first values]] s1]; cbn -[row_of fmap headers].
  - destruct (values_append service _ _ _ s1) as [answer s3]. cbn -[row_of fmap headers].
    eexists. split; [by rewrite <- app_assoc|]. split.
    + split; [|done]. intros [Heq|Hin%elem_of_nil]%elem_of_cons; [|done]. by destruct (Hne _ Heq).
    + intros rq [->|Hin%elem_of_nil]%elem_of_cons; [by right|done].
  - exists []. split; [done|]. split; [split; [by intros ?%elem_of_nil|done]|].
    by intros rq ?%elem_of_nil.
  - destruct (values_append service SPREADSHEET_ID "Sheet2!A1" [headers] s1)
      as [[[|]|cells] s2]; cbn -[row_of fmap headers].
    + destruct (values_append service _ _ _ s2) as [answer s3]. cbn -[row_of fmap headers].
      eexists. split; [by rewrite <- !app_assoc|]. split; [split; [done|by left]|].
      intros rq [->|[->|Hin%elem_of_nil]%elem_of_cons]%elem_of_cons; [by left|by right|done].
    + eexists. split; [by rewrite <- !app_assoc|]. split; [split; [done|by left]|].
      intros rq [->|Hin%elem_of_nil]%elem_of_cons; [by left|done].
    + destruct (values_append service _ _ _ s2) as [answer s3]. cbn -[row_of fmap headers].
      eexists. split; [by rewrite <- !app_assoc|]. split; [split; [done|by left]|].
      intros rq [->|[->|Hin%elem_of_nil]%elem_of_cons]%elem_of_cons; [by left|by right|done].
  - destruct (values_append service _ _ _ s1) as [answer s3]. cbn -[row_of fmap headers].
    eexists. split; [by rewrite <- app_assoc|]. split.
    + split; [|done]. intros [Heq|Hin%elem_of_nil]%elem_of_cons; [|done]. by destruct (Hne _ Heq).
    + intros rq [->|Hin%elem_of_nil]%elem_of_cons; [by right|done].
Qed.

End Sheet_more.


(** ** The fingerprint, the timestamp and the names *)

Lemma le_bytes_length (count : nat) (x : Z) : length (MD5.le_bytes count x) = count.
Proof. unfold MD5.le_bytes. by rewrite length_map, length_seq. Qed.

Lemma le_bytes_range (count : nat) (x : Z) :
  Forall (fun b => 0 <= b < 256) (MD5.le_bytes count x).
Proof.
  unfold MD5.le_bytes. apply Forall_forall. intros b Hb.
  apply list_elem_of_In, in_map_iff in Hb as (i & <- & _).
  change 255 with (Z.ones 8). rewrite Z.land_ones by lia.
  apply Z.mod_pos_bound. lia.
Qed.

Lemma digest_bytes (msg : list Z) :
  length (MD5.digest msg) = 16%nat /\ Forall (fun b => 0 <= b < 256) (MD5.digest msg).
Proof.
  unfold MD5.digest. cbn zeta.
  destruct (MD5.blocks _ MD5.init (MD5.pad msg)) as [A B C D].
  split.
  - by rewrite !length_app, !le_bytes_length.
  - repeat (apply Forall_app; split); apply le_bytes_range.
Qed.

Lemma hex_digit_is_hex (d : Z) :
  0 <= d < 16 -> is_hex_digit (MD5.hex_digit d) = true.
Proof.
  intros Hd.
  assert (Hcase : d = 0 \/ d = 1 \/ d = 2 \/ d = 3 \/ d = 4 \/ d = 5 \/ d = 6 \/ d = 7
                  \/ d = 8 \/ d = 9 \/ d = 10 \/ d = 11 \/ d = 12 \/ d = 13 \/ d = 14
                  \/ d = 15) by lia.
  destruct Hcase as [->|[->|[->|[->|[->|[->|[->|[->|[->|[->|[->|[->|[->|[->|[->| ->]]]]]]]]]]]]]]];
    reflexivity.
Qed.

Lemma hex_of_bytes (bs : list Z) :
  Forall (fun b => 0 <= b < 256) bs ->
  String.length (MD5.hex bs) = (2 * length bs)%nat
  /\ all_chars is_hex_digit (MD5.hex bs) = true.
Proof.
  unfold MD5.hex. induction 1 as [|b bs Hb _ [IHl IHc]]; [done|].
  cbn [flat_map app String.string_of_list_ascii String.length all_chars length].
  rewrite IHl, IHc. split; [lia|].
  rewrite !hex_digit_is_hex; [done| |].
  - change 15 with (Z.ones 4). rewrite Z.land_ones by lia. apply Z.mod_pos_bound. lia.
  - rewrite Z.shiftr_div_pow2 by lia. change (2 ^ 4) with 16.
    split; [apply Z.div_pos; lia | apply Z.div_lt_upper_bound; lia].
Qed.

(** X13.  The fingerprint of any message is a string of 32 lower-case
    hexadecimal digits. *)
Theorem fingerprint_is_32_hex_digits (message : Message.t) :
  String.length (_get_message_id message) = 32%nat
  /\ all_chars is_hex_digit (_get_message_id message) = true.
Proof.
  unfold _get_message_id, MD5.hexdigest. cbn zeta.
  destruct (digest_bytes (PyStr.bytes
              (default "" (Message.ts message) +:+ "-" +:+
               default "" (Message.user message) +:+ "-" +:+
               PyStr.slice_to 50 (default "" (Message.text message))))) as [Hlen Hrange].
  destruct (hex_of_bytes _ Hrange) as [Hl Hc]. rewrite Hl, Hlen. by split.
Qed.

Lemma year_digits_length (n : Z) :
  (1 <= String.length (Datetime.year_digits n) <= 4)%nat
  /\ (0 <= n -> String.length (Datetime.year_digits n) = 4%nat -> 1000 <= n).
Proof.
  unfold Datetime.year_digits.
  destruct (n <? 10) eqn:H1; [cbn; lia|].
  destruct (n <? 100) eqn:H2; [cbn; lia|].
  destruct (n <? 1000) eqn:H3; [cbn; lia|].
  apply Z.ltb_ge in H3. cbn. lia.
Qed.

Lemma length_string_app (a b : string) :
  String.length (a +:+ b) = (String.length a + String.length b)%nat.
Proof. induction a as [|c a IH]; [done|]. simpl. by f_equal. Qed.

(** The text of [strftime]: the year, and 19 characters. *)
Lemma strftime_length (dt : Datetime.t) :
  String.length (Datetime.strftime dt)
  = (String.length (Datetime.year_digits (Datetime.year dt)) + 19)%nat.
Proof.
  destruct dt as [y m d hh mm ss]. unfold Datetime.strftime. cbn [Datetime.year].
  by rewrite length_string_app.
Qed.

(** X14.  The timestamp column is never empty.  A timestamp that
    converts to an instant from the year 1000 on gives 23 characters,
    and they tell the second: no timestamp that converts to another
    second gives the same column. *)
Theorem timestamp_column_tells_the_second (float_seconds : string -> option Z)
    (m1 m2 : Message.t) :
  format_timestamp float_seconds m1 ≠ ""
  /\ (forall t1 s1 d1,
        Message.ts m1 = Some t1 -> float_seconds t1 = Some s1 ->
        Datetime.fromtimestamp_utc s1 = Some d1 -> t1 ≠ "" ->
        1000 <= Datetime.year d1 ->
        String.length (format_timestamp float_seconds m1) = 23%nat
        /\ forall t2 s2 d2,
             Message.ts m2 = Some t2 -> float_seconds t2 = Some s2 ->
             Datetime.fromtimestamp_utc s2 = Some d2 -> t2 ≠ "" ->
             format_timestamp float_seconds m1 = format_timestamp float_seconds m2 ->
             s1 = s2).
Proof.
  assert (Hconv : forall m t s d,
            Message.ts m = Some t -> float_seconds t = Some s ->
            Datetime.fromtimestamp_utc s = Some d -> t ≠ "" ->
            format_timestamp float_seconds m = Datetime.strftime d).
  { intros m t s d Ht Hs Hd Hne. unfold format_timestamp. rewrite Ht.
    cbn [default from_option]. unfold id.
    destruct t as [|c rest]; [done|]. cbn [PyStr.truthy].
    rewrite Hs. cbn [mbind option_bind]. by rewrite Hd. }
  assert (Hfour : forall d, 1000 <= Datetime.year d ->
            String.length (Datetime.strftime d) = 23%nat).
  { intros d Hy. by rewrite strftime_length, year_digits_four. }
  split.
  - unfold format_timestamp.
    destruct (default "" (Message.ts m1)) as [|c rest] eqn:Ht; [done|].
    cbn [PyStr.truthy].
    destruct (float_seconds (String c rest) ≫= Datetime.fromtimestamp_utc) as [dt|]; [|done].
    intros Hempty. pose proof (strftime_length dt) as Hlen. rewrite Hempty in Hlen.
    cbn in Hlen. lia.
  - intros t1 s1 d1 Ht1 Hs1 Hd1 Hne1 Hy1. rewrite (Hconv m1 t1 s1 d1) by done.
    split; [by apply Hfour|].
    intros t2 s2 d2 Ht2 Hs2 Hd2 Hne2. rewrite (Hconv m2 t2 s2 d2) by done.
    intros Heq.
    pose proof (fromtimestamp_valid _ _ Hd1) as Hv1.
    pose proof (fromtimestamp_valid _ _ Hd2) as Hv2.
    assert (Hy2 : 1000 <= Datetime.year d2).
    { apply (proj2 (year_digits_length (Datetime.year d2))); [unfold valid_datetime in Hv2; lia|].
      pose proof (strftime_length d2) as Hlen. rewrite <- Heq, (Hfour d1 Hy1) in Hlen. lia. }
    assert (Hd : d1 = d2).
    { by rewrite <- (strftime_reads_back d1 Hv1 Hy1), <- (strftime_reads_back d2 Hv2 Hy2), Heq. }
    rewrite <- (fromtimestamp_instant s1 d1 Hd1), <- (fromtimestamp_instant s2 d2 Hd2).
    by rewrite Hd.
Qed.

(** X15.  The channel column is not empty when the channel id is not.
    The user column is not empty when the author id is not, unless
    Slack answers with a profile whose [name] is the empty string and
    that has no other name, in which case the column is empty. *)
Theorem name_columns_are_not_blank (slack : slack_client) (user_id channel_id : string) :
  (channel_id ≠ "" -> get_channel_name slack channel_id ≠ "")
  /\ (user_id ≠ "" ->
      (forall profile, users_info slack user_id = Ok profile ->
                       User.name profile ≠ Some "") ->
      get_user_name slack user_id ≠ "")
  /\ (forall display real,
        users_info slack user_id = Ok (User.mk display real (Some "")) ->
        py_or display "" = "" -> py_or real "" = "" ->
        get_user_name slack user_id = "").
Proof.
  split_and!.
  - intros Hc. unfold get_channel_name.
    by destruct (conversations_info slack channel_id).
  - intros Hu Hname. unfold get_user_name.
    destruct (users_info slack user_id) as [| |[display real name]]; [done|done|].
    specialize (Hname _ eq_refl). cbn in Hname |- *. unfold py_or.
    destruct display as [[|c d]|], real as [[|c' r]|], name as [[|c'' n]|]; cbn; done.
  - intros display real Hu Hd Hr. unfold get_user_name. rewrite Hu. cbn. unfold py_or in *.
    destruct display as [[|c d]|], real as [[|c' r]|]; cbn in *; done.
Qed.

(** The replies that are kept: those with another timestamp than the
    message. *)
Lemma filter_other_ts_all (others : list Message.t) (ts : option string) :
  (forall msg, msg ∈ others -> Message.ts msg ≠ ts) ->
  filter (fun msg => Message.ts msg ≠ ts) others = others.
Proof.
  induction others as [|x others IH]; intros Hall; [done|].
  rewrite filter_cons, decide_True by (apply Hall; left).
  f_equal. apply IH. intros msg Hin. apply Hall. by right.
Qed.

Lemma filter_other_ts_length (others : list Message.t) (ts : option string) :
  NoDup (Message.ts <$> others) ->
  (exists msg, msg ∈ others /\ Message.ts msg = ts) ->
  Datatypes.S (length (filter (fun msg => Message.ts msg ≠ ts) others)) = length others.
Proof.
  induction others as [|msg rest IH]; intros Hnd (msg' & Hin & Hts).
  - by apply elem_of_nil in Hin.
  - rewrite fmap_cons in Hnd. apply NoDup_cons in Hnd as [Hfresh Hnd].
    rewrite filter_cons. destruct (decide (Message.ts msg ≠ ts)) as [Hne|Heq].
    + cbn. f_equal. apply IH; [done|].
      apply elem_of_cons in Hin as [->|Hin]; [done|]. by exists msg'.
    + cbn. f_equal. apply dec_stable in Heq. rewrite filter_other_ts_all; [done|].
      intros x Hx Hxts. apply Hfresh. rewrite Heq, <- Hxts.
      by apply list_elem_of_fmap_2.
Qed.

(** X16.  The thread of a message.  Without a thread reference, or when
    the thread comes back empty, the parent and the replies are empty.
    Otherwise the parent is the text of the first message of the thread
    and the replies are texts of the later ones, in their order: all of
    them when none has the timestamp of the message, and all but one
    when the timestamps of the later ones are distinct and the message
    is one of them. *)
Theorem thread_leaves_out_the_message (slack : slack_client) (channel_id : string)
    (message : Message.t) :
  (default "" (Message.thread_ts message) = "" ->
   thread_context slack channel_id message = ("", []))
  /\ (forall t, Message.thread_ts message = Some t ->
        get_thread_replies slack channel_id t = [] ->
        thread_context slack channel_id message = ("", []))
  /\ (forall t first others,
        Message.thread_ts message = Some t -> t ≠ "" ->
        get_thread_replies slack channel_id t = first :: others ->
        (thread_context slack channel_id message).1 = default "" (Message.text first)
        /\ (thread_context slack channel_id message).2
           `sublist_of` ((fun msg => default "" (Message.text msg)) <$> others)
        /\ ((forall msg, msg ∈ others -> Message.ts msg ≠ Message.ts message) ->
            (thread_context slack channel_id message).2
            = (fun msg => default "" (Message.text msg)) <$> others)
        /\ (NoDup (Message.ts <$> others) ->
            (exists msg, msg ∈ others /\ Message.ts msg = Message.ts message) ->
            Datatypes.S (length (thread_context slack channel_id message).2)
            = length others)).
Proof.
  split_and!.
  - unfold thread_context. destruct (Message.thread_ts message) as [[|c t]|]; done.
  - intros t Ht Hempty. unfold thread_context. rewrite Ht, Hempty.
    by destruct (PyStr.truthy t).
  - intros t first others Ht Hne Hthread. unfold thread_context. rewrite Ht, Hthread.
    destruct t as [|c t]; [done|]. cbn [PyStr.truthy fst snd].
    split_and!.
    + done.
    + apply fmap_sublist, sublist_filter.
    + intros Hall. by rewrite filter_other_ts_all.
    + intros Hnd Hex. rewrite length_fmap. by apply filter_other_ts_length.
Qed.


(** ** The start of the program *)

(** [__init__] returns and touches the seen set only. *)
Lemma init_keeps {S : Type} (w : world S) :
  exists pm, __init__ w = (inr tt, set_processed_messages pm w).
Proof.
  change (__init__ w) with (_load_state (set_processed_messages ∅ w)).
  rewrite load_state_cases. cbn [state_file set_processed_messages].
  destruct (state_file w) as [| | |[|b|n|s|items|members]]; try by eexists.
  destruct (py_set _); by eexists.
Qed.


Section Startup_more.

Context (slack : slack_client) {S : Type} (service : sheets_service S).
Context (float_seconds : string -> option Z).
Context (auth_test : response Auth.t).
Context (spreadsheets_get : string -> S -> (failure + json) * S).
Context (credentials_file : credentials).

Abbreviation test := (test_connections auth_test spreadsheets_get).
Abbreviation start :=
  (main slack service float_seconds auth_test spreadsheets_get credentials_file).

Lemma test_connections_cases (w : world S) :
  test w
  = match auth_test with
    | Ok _ =>
        (inr (has_title (spreadsheets_get SPREADSHEET_ID (sheet w)).1), asked spreadsheets_get w)
    | NotOk | Raised => (inr false, w)
    end.
Proof.
  unfold test_connections, try_except, bind, execute_spreadsheets_get, lift, asked.
  destruct auth_test as [| |info]; cbn; [done|done|].
  destruct (spreadsheets_get SPREADSHEET_ID (sheet w)) as [[[|]|result] s]; cbn; [done..|].
  destruct (title_of result) as [e|title] eqn:Htitle; [|done].
  destruct result as [|b|n|str|items|members]; cbn in Htitle; try by simplify_eq.
  destruct (default (JObj []) (member_lookup "properties" members)); by simplify_eq.
Qed.


Lemma main_cases (now : string) (w : world S) :
  start now w
  = match credentials_file with
    | GoodCredentials =>
        let w1 := (__init__ w).2 in
        match test w1 with
        | (inr true, w2) =>
            match run_monitor_cycle slack service float_seconds now w2 with
            | (inl e, w3) => if is_Exception e then (inr tt, w3) else (inl e, w3)
            | (inr _, w3) => (inr tt, w3)
            end
        | (_, w2) => (inr tt, w2)
        end
    | NoCredentials | BadCredentials => (inr tt, set_processed_messages ∅ w)
    end.
Proof.
  unfold main, new_monitor, _init_google_sheets, try_except, bind, modify, raise, ret.
  destruct credentials_file; [done|done|].
  change (_load_state (set_processed_messages ∅ w)) with (__init__ w).
  destruct (init_keeps w) as [pm ->]. cbn [snd].
  rewrite test_connections_cases.
  destruct auth_test as [| |info]; [done|done|].
  cbn [sheet set_processed_messages].
  destruct (has_title (spreadsheets_get SPREADSHEET_ID (sheet w)).1); [|done].
  by destruct (run_monitor_cycle slack service float_seconds now _) as [[e|n] w3].
Qed.

(** X18.  [main] raises nothing that [except Exception] catches.  When
    the credentials cannot be loaded, or Slack does not authenticate, or
    no title can be read off the spreadsheet, it returns with the state
    file as it was and without a request on the values of the sheet: no
    cycle is run.  Otherwise it ends in the world that one cycle leaves,
    run after the state has been loaded and the connections tested. *)
Theorem main_runs_the_cycle_only_when_connected (now : string) (w : world S) :
  match (start now w).1 with
  | inr _ => True
  | inl e => is_Exception e = false /\ write_fault w = Interrupted
  end
  /\ (credentials_file ≠ GoodCredentials
      \/ (forall info, auth_test ≠ Ok info)
      \/ has_title (spreadsheets_get SPREADSHEET_ID (sheet w)).1 = false ->
      (start now w).1 = inr tt
      /\ state_file (start now w).2 = state_file w
      /\ requests (start now w).2 = requests w
      /\ (sheet (start now w).2 = sheet w
          \/ sheet (start now w).2 = (spreadsheets_get SPREADSHEET_ID (sheet w)).2))
  /\ (credentials_file = GoodCredentials ->
      (exists info, auth_test = Ok info) ->
      has_title (spreadsheets_get SPREADSHEET_ID (sheet w)).1 = true ->
      (start now w).2
      = (run_monitor_cycle slack service float_seconds now
           (asked spreadsheets_get (__init__ w).2)).2).
Proof.
  rewrite main_cases.
  destruct (init_keeps w) as [pm Hinit].
  destruct credentials_file.
  - cbn. split; [done|split; [|done]]. intros _. split_and!; [done..|by left].
  - cbn. split; [done|split; [|done]]. intros _. split_and!; [done..|by left].
  - cbn zeta. rewrite Hinit. cbn [snd]. rewrite test_connections_cases.
    destruct auth_test as [| |info].
    + cbn. split; [done|split; [|by intros _ [? ?]]]. intros _. split_and!; [done..|by left].
    + cbn. split; [done|split; [|by intros _ [? ?]]]. intros _. split_and!; [done..|by left].
    + cbn [sheet set_processed_messages].
      destruct (has_title (spreadsheets_get SPREADSHEET_ID (sheet w)).1) eqn:Hget.
      2:{ unfold asked. cbn. split; [done|split; [|done]].
          intros _. split_and!; [done..|by right]. }
      pose proof (cycle_summary slack service float_seconds now
                      (asked spreadsheets_get (set_processed_messages pm w)))
        as (sent & _ & _ & Hr).
        cbn zeta in Hr.
        destruct (run_monitor_cycle slack service float_seconds now
                    (asked spreadsheets_get (set_processed_messages pm w)))
        as [[e|n] w3]; cbn in Hr |- *.
      * destruct Hr as (-> & Hfault & _). cbn.
        split; [done|split; [|done]].
        intros [Hc|[Hno|Hf]]; [done|by destruct (Hno info)|done].
      * split; [done|split; [|done]].
        intros [Hc|[Hno|Hf]]; [done|by destruct (Hno info)|done].
Qed.

End Startup_more.


(** ** Loading a state file that the program did not write *)

(** X19.  From a state file that holds a JSON object, [_load_state]
    takes the strings listed under [processed_messages], each once and
    whatever the other keys hold, and takes the empty set when the
    object has no such key. *)
Theorem load_reads_the_listed_strings {S : Type} (w : world S)
    (members : list (string * json)) :
  state_file w = Document (JObj members) ->
  (member_lookup "processed_messages" members = None ->
   _load_state w = (inr tt, set_processed_messages ∅ w))
  /\ (forall l, member_lookup "processed_messages" members = Some (JArr (JStr <$> l)) ->
        _load_state w = (inr tt, set_processed_messages (list_to_set l) w)
        /\ forall x, x ∈ processed_messages (_load_state w).2 <-> x ∈ l).
Proof.
  intros Hfile. rewrite load_state_cases, Hfile. split.
  - intros ->. reflexivity.
  - intros l ->. cbn [default from_option]. unfold id. cbn [py_set].
    rewrite hashable_strings_fmap. split; [done|].
    intros x. cbn. apply elem_of_list_to_set.
Qed.

(** * More examples *)

Lemma load_witness :
  (member_lookup "processed_messages"
     [ ("comment", JStr "edited by hand");
       ("processed_messages", JArr (JStr <$> ["b2"; "a1"; "b2"])) ] = None ->
   _load_state handwritten = (inr tt, set_processed_messages ∅ handwritten))
  /\ (forall l,
        member_lookup "processed_messages"
          [ ("comment", JStr "edited by hand");
            ("processed_messages", JArr (JStr <$> ["b2"; "a1"; "b2"])) ]
        = Some (JArr (JStr <$> l)) ->
        _load_state handwritten
        = (inr tt, set_processed_messages (list_to_set l) handwritten)
        /\ forall x, x ∈ processed_messages (_load_state handwritten).2 <-> x ∈ l).
Proof. apply (load_reads_the_listed_strings handwritten). reflexivity. Defined.

Example load_handwritten :
  elements (processed_messages (_load_state handwritten).2) = ["a1"; "b2"]
  \/ elements (processed_messages (_load_state handwritten).2) = ["b2"; "a1"].
Proof. first [left; by_running | right; by_running]. Qed.

Lemma history_failure_witness :
  fetch_new_triggered_messages down_slack Demo.float_seconds DEFAULT_CHANNEL_ID refused
  = (inr [], refused)
  /\ run_monitor_cycle down_slack Demo.service Demo.float_seconds demo_now refused
     = (inr 0, refused).
Proof.
  apply (history_failure_changes_nothing down_slack Demo.service Demo.float_seconds).
  left. reflexivity.
Defined.

Lemma lookups_witness :
  exists items1 items2 w',
    fetch_new_triggered_messages demo_slack Demo.float_seconds DEFAULT_CHANNEL_ID refused
    = (inr items1, w')
    /\ fetch_new_triggered_messages
         (silent_slack [Demo.message_A; Demo.message_B; Demo.message_C])
         Demo.float_seconds DEFAULT_CHANNEL_ID refused
       = (inr items2, w')
    /\ own_fields <$> items1 = own_fields <$> items2
    /\ length items1 = length items2.
Proof.
  apply (lookups_do_not_change_what_is_fetched demo_slack
           (silent_slack [Demo.message_A; Demo.message_B; Demo.message_C])).
  reflexivity.
Defined.

Lemma silent_slack_fails (messages : list Message.t) : lookups_fail (silent_slack messages).
Proof. unfold lookups_fail. cbn. split_and!; intros; by (left + right). Qed.

Lemma degraded_witness :
  exists items w',
    fetch_new_triggered_messages
      (silent_slack [Demo.message_A; Demo.message_B; Demo.message_C])
      Demo.float_seconds DEFAULT_CHANNEL_ID refused
    = (inr items, w')
    /\ items `sublist_of`
         (fallback_item Demo.float_seconds DEFAULT_CHANNEL_ID
            <$> source (silent_slack [Demo.message_A; Demo.message_B; Demo.message_C])
                  DEFAULT_CHANNEL_ID)
    /\ forall x, x ∈ Item.id <$> items
         <-> (x ∉ processed_messages refused)
             /\ exists m,
                  m ∈ source (silent_slack [Demo.message_A; Demo.message_B; Demo.message_C])
                        DEFAULT_CHANNEL_ID
                  /\ _get_message_id m = x /\ matching m ≠ [].
Proof.
  apply (failed_lookups_degrade_to_ids
           (silent_slack [Demo.message_A; Demo.message_B; Demo.message_C])).
  apply silent_slack_fails.
Defined.

Example degraded_item :
  (fetch_new_triggered_messages
     (silent_slack [Demo.message_A; Demo.message_B; Demo.message_C])
     Demo.float_seconds DEFAULT_CHANNEL_ID refused).1
  = inr [ Item.mk "ec64e99096c766c6ecd669441686348b" "2023-11-14 22:15:00 UTC" "U1"
            "channel_ID" "please file the form" "" "" "" "form" ].
Proof. by_running. Qed.

Lemma restart_witness :
  __init__ (demo_cycle (Demo.fresh demo_seen Demo.empty_store NoFault)).2
  = (inr tt, (demo_cycle (Demo.fresh demo_seen Demo.empty_store NoFault)).2)
  /\ demo_cycle (demo_cycle (Demo.fresh demo_seen Demo.empty_store NoFault)).2
     = (inr 0, (demo_cycle (Demo.fresh demo_seen Demo.empty_store NoFault)).2).
Proof.
  unfold demo_cycle.
  apply (restart_after_a_saved_cycle demo_slack Demo.service Demo.float_seconds
           demo_now demo_now (Demo.fresh demo_seen Demo.empty_store NoFault) 1).
  - reflexivity.
  - by_running.
  - discriminate.
Defined.

Lemma retry_witness :
  processed_messages (__init__ (demo_cycle refused_with_state).2).2
  = processed_messages refused_with_state
  /\ (demo_fetch (__init__ (demo_cycle refused_with_state).2).2).1
     = (demo_fetch refused_with_state).1.
Proof.
  unfold demo_cycle, demo_fetch.
  apply (failed_cycle_is_retried_after_restart demo_slack Demo.service Demo.float_seconds
           demo_now "2025-12-31T00:00:00+00:00" refused_with_state).
  - reflexivity.
  - by_running.
Defined.

Example retry_fetches_B_again :
  (demo_cycle refused_with_state).1 = inr 0
  /\ (demo_fetch (demo_cycle refused_with_state).2).1 = inr []
  /\ (demo_fetch (__init__ (demo_cycle refused_with_state).2).2).1 = inr [item_B].
Proof. split_and!; by_running. Qed.


Example thread_of_the_reply :
  thread_context threaded_slack DEFAULT_CHANNEL_ID thread_reply
  = ("who files the form?", ["done"]).
Proof. by_running. Qed.

Example threaded_item :
  (fetch_new_triggered_messages threaded_slack Demo.float_seconds DEFAULT_CHANNEL_ID
     (Demo.fresh ∅ Demo.empty_store NoFault)).1
  = inr [ Item.mk "ec64e99096c766c6ecd669441686348b" "2023-11-14 22:15:00 UTC" ""
            "channel_ID" "please file the form" "who files the form?" "done" "" "form" ].
Proof. by_running. Qed.

Example main_appends_the_rows :
  (demo_main (Ok (Auth.mk (Some "bot") (Some "team"))) GoodCredentials).1 = inr tt
  /\ length (Demo.rows (sheet (demo_main (Ok (Auth.mk (Some "bot") (Some "team")))
                                 GoodCredentials).2)) = 3%nat
  /\ (demo_main NotOk GoodCredentials).1 = inr tt
  /\ Demo.rows (sheet (demo_main NotOk GoodCredentials).2) = []
  /\ (demo_main (Ok (Auth.mk None None)) NoCredentials).1 = inr tt
  /\ Demo.rows (sheet (demo_main (Ok (Auth.mk None None)) NoCredentials).2) = [].
Proof. split_and!; by_running. Qed.
